(** * cb-response-surveyor: a model of [surveyor.py]

    The survey tool builds Carbon Black process-search queries from layered
    criteria, runs them against one of two backends, deduplicates the matches
    as a set of 4-tuples and writes them as rows of a CSV file.

    The development follows the source file top down: the Python string and
    path primitives the program relies on, the two backends, the effects of a
    run recorded as a trace of events, then [process_search],
    [nested_process_search] and [main].  Strings are byte strings; the
    case-folding and whitespace primitives are the ASCII ones. *)

From Stdlib Require Import ZArith Ascii String.
From stdpp Require Import base tactics option list strings pretty gmap.

Local Open Scope string_scope.
Local Open Scope Z_scope.

(** ** Python string primitives *)

Module Py.

(** [str.lower] on one character. *)
Definition lower_ascii (c : ascii) : ascii :=
  let n := N_of_ascii c in
  if ((65 <=? n) && (n <=? 90))%N then ascii_of_N (n + 32) else c.

(** [s.lower()] *)
Fixpoint lower (s : string) : string :=
  match s with
  | EmptyString => EmptyString
  | String c r => String (lower_ascii c) (lower r)
  end.

(** The characters [str.strip()] removes: tab, line feed, vertical tab, form
    feed, carriage return, the four separators 0x1c-0x1f and the space. *)
Definition isspace (c : ascii) : bool :=
  let n := N_of_ascii c in
  (((9 <=? n) && (n <=? 13)) || ((28 <=? n) && (n <=? 32)))%N.

(** [s.lstrip()] *)
Fixpoint lstrip (s : string) : string :=
  match s with
  | EmptyString => EmptyString
  | String c r => if isspace c then lstrip r else s
  end.

(** [s.rstrip()] *)
Fixpoint rstrip (s : string) : string :=
  match s with
  | EmptyString => EmptyString
  | String c r =>
      match rstrip r with
      | EmptyString => if isspace c then EmptyString else String c EmptyString
      | r' => String c r'
      end
  end.

(** [s.strip()] *)
Definition strip (s : string) : string := rstrip (lstrip s).

(** [sep.join(l)] *)
Fixpoint join (sep : string) (l : list string) : string :=
  match l with
  | [] => ""
  | [x] => x
  | x :: r => x +:+ sep +:+ join sep r
  end.

(** [s.startswith(p)] *)
Fixpoint startswith (p s : string) : bool :=
  match p, s with
  | EmptyString, _ => true
  | String a p', String b s' => if Ascii.eqb a b then startswith p' s' else false
  | String _ _, EmptyString => false
  end.

(** [sub in s]: [sub] occurs in [s] as a contiguous substring. *)
Fixpoint contains (sub s : string) : bool :=
  startswith sub s ||
  match s with
  | EmptyString => false
  | String _ r => contains sub r
  end.

(** [s.endswith(p)] *)
Fixpoint endswith (p s : string) : bool :=
  String.eqb p s ||
  match s with
  | EmptyString => false
  | String _ r => endswith p r
  end.

(** [s.rfind(c)] for a single character, [-1] when [c] does not occur. *)
Fixpoint rfind (c : ascii) (s : string) : Z :=
  match s with
  | EmptyString => -1
  | String a r =>
      let i := rfind c r in
      if 0 <=? i then i + 1 else if Ascii.eqb a c then 0 else -1
  end.

(** The slices [s[i:]] and [s[:i]] for [0 <= i]. *)
Fixpoint slice_from (i : nat) (s : string) : string :=
  match i, s with
  | O, _ => s
  | S i', String _ r => slice_from i' r
  | S _, EmptyString => EmptyString
  end.

Fixpoint slice_to (i : nat) (s : string) : string :=
  match i, s with
  | O, _ => EmptyString
  | S i', String c r => String c (slice_to i' r)
  | S _, EmptyString => EmptyString
  end.

(** [bool(s)] for a string: the empty string is falsy. *)
Definition truthy (s : string) : bool :=
  match s with EmptyString => false | _ => true end.

(** [bool(o)] for a flag value that is [None] or a string. *)
Definition truthy_opt (o : option string) : bool :=
  match o with Some s => truthy s | None => false end.

(** [bool(o)] for a flag value that is [None] or an integer. *)
Definition truthy_int (o : option Z) : bool :=
  match o with Some n => negb (n =? 0) | None => false end.

(** ['%d' % n] *)
Definition fmt_d (n : Z) : string := pretty n.

(** [f.readlines()] on text with universal newlines: the text is cut after
    every line end, and ["\r\n"] and ["\r"] are read as ["\n"]. *)
Fixpoint readlines_go (cur : string) (s : string) : list string :=
  match s with
  | EmptyString => if truthy cur then [cur] else []
  | String c r =>
      if Ascii.eqb c "010" then (cur +:+ String "010" "") :: readlines_go "" r
      else if Ascii.eqb c "013" then
        match r with
        | String d _ =>
            if Ascii.eqb d "010" then readlines_go cur r
            else (cur +:+ String "010" "") :: readlines_go "" r
        | EmptyString => [cur +:+ String "010" ""]
        end
      else readlines_go (cur +:+ String c "") r
  end.

Definition readlines (text : string) : list string := readlines_go "" text.

(** [os.path.basename(p)] (posixpath) *)
Definition basename (p : string) : string :=
  let i := rfind "/" p + 1 in
  slice_from (Z.to_nat i) p.

(** The loop of [genericpath._splitext] that skips leading dots: is there a
    character other than the dot among the first [n] of [s]? *)
Fixpoint has_non_dot (n : nat) (s : string) : bool :=
  match n, s with
  | S n', String c r => if Ascii.eqb c "." then has_non_dot n' r else true
  | _, _ => false
  end.

(** [os.path.splitext(p)] (posixpath) *)
Definition splitext (p : string) : string * string :=
  let sepIndex := rfind "/" p in
  let dotIndex := rfind "." p in
  if (sepIndex <? dotIndex)
     && has_non_dot (Z.to_nat (dotIndex - (sepIndex + 1)))
                    (slice_from (Z.to_nat (sepIndex + 1)) p)
  then (slice_to (Z.to_nat dotIndex) p, slice_from (Z.to_nat dotIndex) p)
  else (p, "").

(** [os.path.join(a, b)] (posixpath, two components) *)
Definition path_join (a b : string) : string :=
  if startswith "/" b then b
  else if negb (truthy a) || endswith "/" a then a +:+ b
  else a +:+ "/" +:+ b.

End Py.

(** ** Records, result sets and backends *)

(** A row of a result set: (endpoint, username, path, command line). *)
Definition Result : Type := string * string * string * string.

(** A process record of the on-premises backend ([cbapi.response]): the four
    attributes the survey reads. *)
Record r_Process := {
  r_hostname : string;
  r_username : string;
  r_path : string;
  r_cmdline : string
}.

(** A process record of the cloud backend ([cbapi.psc.threathunter]) is read
    through [proc.get(key)], which gives [None] for a missing key. *)
Abbreviation th_Process := (gmap string string).

(** [str(proc.get(key))]: a missing key reads as the string ["None"]. *)
Definition str_get (proc : th_Process) (key : string) : string :=
  default "None" (proc !! key).

(** The exceptions the program distinguishes. *)
Inductive exn :=
| ServerError
| KeyboardInterrupt
| OtherError (what : string).

(** The lazy sequence [select(Process).where(query)] as the program sees it:
    the records it yields, then how the iteration ends: exhausted ([None]) or
    with an exception raised while fetching the next record. *)
Record stream (A : Type) := {
  records : list A;
  ending : option exn
}.
Arguments records {A} _.
Arguments ending {A} _.

(** The connection object [cb_conn]; [isinstance(cb_conn, CbThreatHunterAPI)]
    is the match on its constructor. *)
Inductive cb_conn :=
| CbEnterpriseResponseAPI (select_where : string → stream r_Process)
| CbThreatHunterAPI (convert_query : string → exn + string)
                    (select_where : string → stream th_Process).

(** ** Effects of a run *)

Inductive event :=
| Stdout (text : string)            (* sys.stdout.write(text) *)
| Stderr (text : string)            (* sys.stderr.write(text) *)
| ParserError (msg : string)        (* parser.error(msg): usage and msg on stderr *)
| ConvertQuery (query : string)     (* cb_conn.convert_query(query) *)
| Select (query : string)           (* iteration of select(Process).where(query) *)
| OpenOutput (name : string)        (* output_file = open(name, 'w') *)
| WriteRow (row : list string)      (* writer.writerow(row) *)
| CloseOutput.                      (* output_file.close() *)

(** How a computation ends: with a value, by [sys.exit(code)], or with an
    exception that nothing caught. *)
Inductive outcome (A : Type) :=
| Return (a : A)
| SysExit (code : Z)
| Raise (e : exn).
Arguments Return {A} _.
Arguments SysExit {A} _.
Arguments Raise {A} _.

(** A computation: the events it performed, in order, and its outcome. *)
Record M (A : Type) := Run {
  trace : list event;
  result : outcome A
}.
Arguments Run {A} _ _.
Arguments trace {A} _.
Arguments result {A} _.

#[global] Instance M_ret : MRet M := λ A a, Run [] (Return a).

#[global] Instance M_bind : MBind M := λ A B f m,
  match result m with
  | Return a => Run (trace m ++ trace (f a)) (result (f a))
  | SysExit c => Run (trace m) (SysExit c)
  | Raise e => Run (trace m) (Raise e)
  end.

Definition emit (e : event) : M unit := Run [e] (Return ()).
Definition sys_exit {A} (code : Z) : M A := Run [] (SysExit code).
Definition raise {A} (e : exn) : M A := Run [] (Raise e).

(** [for x in l: body x] *)
Fixpoint for_each {A} (l : list A) (body : A → M unit) : M unit :=
  match l with
  | [] => mret ()
  | x :: r => body x ;; for_each r body
  end.

(** The exit status the operating system sees: [main] returning is
    [sys.exit(None)], status 0; an uncaught exception ends the interpreter
    with status 1. *)
Definition exit_status {A} (o : outcome A) : Z :=
  match o with
  | Return _ => 0
  | SysExit c => c
  | Raise _ => 1
  end.

(** ** [err] and [log] *)

Definition err (msg : string) : M unit :=
  let msg := "ERROR: " +:+ msg in
  emit (Stderr msg).

Definition newline : string := String "010" "".

Definition log (msg : string) (newline : string) : M unit :=
  let msg := msg +:+ newline in
  emit (Stdout msg).

(** ** [process_search] *)

(** The body of the loop on the on-premises backend. *)
Definition r_row (proc : r_Process) : Result :=
  (Py.lower (r_hostname proc), Py.lower (r_username proc),
   r_path proc, r_cmdline proc).

(** The body of the loop on the cloud backend. *)
Definition th_row (proc : th_Process) : Result :=
  (Py.lower (str_get proc "device_name"),
   Py.lower (str_get proc "process_username"),
   str_get proc "process_name",
   str_get proc "process_cmdline").

(** [for proc in ...: results.add(row proc)], over the records the sequence
    yields before it ends. *)
Definition collect {A} (row : A → Result) (procs : list A)
    (results : gset Result) : gset Result :=
  foldl (λ acc proc, acc ∪ {[ row proc ]}) results procs.

(** The end of the [try] block once the loop has stopped with [results]:
    [KeyboardInterrupt] is caught and logged, any other exception leaves the
    function, and in both remaining cases [results] is returned. *)
Definition finish (results : gset Result) (e : option exn) : M (gset Result) :=
  match e with
  | None => mret results
  | Some KeyboardInterrupt =>
      log ("Caught CTRL-C. Returning what we have . . ." +:+ newline) newline ;;
      mret results
  | Some e => raise e
  end.

(** [query += query_base] and the loop over the matching records. *)
Definition run_query {A} (select_where : string → stream A)
    (row : A → Result) (query query_base : string) : M (gset Result) :=
  let results : gset Result := ∅ in
  let query := query +:+ query_base in
  emit (Select query) ;;
  let s := select_where query in
  finish (collect row (records s) results) (ending s).

Definition process_search (cb_conn : cb_conn) (query query_base : string)
    (translate : bool) : M (gset Result) :=
  match cb_conn with
  | CbThreatHunterAPI convert_query select_where =>
      if translate then
        emit (ConvertQuery query) ;;
        match convert_query query with
        | inr query => run_query select_where th_row query query_base
        | inl ServerError =>
            log (newline +:+ "Can't convert query: " +:+ query
                 +:+ ". Skipping . . .") newline ;;
            mret ∅
        | inl e => finish ∅ (Some e)
        end
      else run_query select_where th_row query query_base
  | CbEnterpriseResponseAPI select_where =>
      run_query select_where r_row query query_base
  end.

(** ** [nested_process_search] *)

(** A criteria group: the items of the dict, in iteration order. *)
Definition Criteria : Type := list (string * list string).

(** The query built for one search field. *)
Definition field_query (search_field : string) (terms : list string) : string :=
  "(" +:+ Py.join " OR " ((λ term, search_field +:+ ":" +:+ term) <$> terms) +:+ ")".

Fixpoint nested_loop (cb_conn : cb_conn) (items : Criteria)
    (query_base : string) (translate : bool) (results : gset Result)
    : M (gset Result) :=
  match items with
  | [] => mret results
  | (search_field, terms) :: rest =>
      let query := field_query search_field terms in
      found ← process_search cb_conn query query_base translate;
      nested_loop cb_conn rest query_base translate (results ∪ found)
  end.

Definition nested_process_search (cb_conn : cb_conn) (criteria : Criteria)
    (query_base : string) (translate : bool) : M (gset Result) :=
  nested_loop cb_conn criteria query_base translate ∅.

(** ** The command line *)

(** [args], the namespace [parser.parse_args()] returns. *)
Record Args := {
  arg_prefix : option string;
  arg_profile : string;
  arg_cbc : bool;
  arg_translate : bool;
  arg_days : option Z;
  arg_minutes : option Z;
  arg_deffile : option string;
  arg_defdir : option string;
  arg_query : option string;
  arg_iocfile : option string;
  arg_hostname : option string;
  arg_username : option string;
  arg_ioctype : option string
}.

(** One occurrence of a flag on the command line, with its value already
    converted to the flag's [type]. *)
Inductive cli_opt :=
| opt_prefix (v : string)
| opt_profile (v : string)
| opt_cbc
| opt_translate
| opt_days (v : Z)
| opt_minutes (v : Z)
| opt_deffile (v : string)
| opt_defdir (v : string)
| opt_query (v : string)
| opt_iocfile (v : string)
| opt_hostname (v : string)
| opt_username (v : string)
| opt_ioctype (v : string).

(** The defaults of [add_argument]. *)
Definition default_args : Args :=
  {| arg_prefix := None; arg_profile := "default"; arg_cbc := false;
     arg_translate := false; arg_days := None; arg_minutes := None;
     arg_deffile := None; arg_defdir := None; arg_query := None;
     arg_iocfile := None; arg_hostname := None; arg_username := None;
     arg_ioctype := None |}.

(** The actions [store] and [store_true]: an occurrence overwrites what an
    earlier occurrence of the same flag stored. *)
Definition store (a : Args) (o : cli_opt) : Args :=
  let '(Build_Args prefix profile cbc translate days minutes deffile defdir
          query iocfile hostname username ioctype) := a in
  match o with
  | opt_prefix v => Build_Args (Some v) profile cbc translate days minutes deffile defdir query iocfile hostname username ioctype
  | opt_profile v => Build_Args prefix v cbc translate days minutes deffile defdir query iocfile hostname username ioctype
  | opt_cbc => Build_Args prefix profile true translate days minutes deffile defdir query iocfile hostname username ioctype
  | opt_translate => Build_Args prefix profile cbc true days minutes deffile defdir query iocfile hostname username ioctype
  | opt_days v => Build_Args prefix profile cbc translate (Some v) minutes deffile defdir query iocfile hostname username ioctype
  | opt_minutes v => Build_Args prefix profile cbc translate days (Some v) deffile defdir query iocfile hostname username ioctype
  | opt_deffile v => Build_Args prefix profile cbc translate days minutes (Some v) defdir query iocfile hostname username ioctype
  | opt_defdir v => Build_Args prefix profile cbc translate days minutes deffile (Some v) query iocfile hostname username ioctype
  | opt_query v => Build_Args prefix profile cbc translate days minutes deffile defdir (Some v) iocfile hostname username ioctype
  | opt_iocfile v => Build_Args prefix profile cbc translate days minutes deffile defdir query (Some v) hostname username ioctype
  | opt_hostname v => Build_Args prefix profile cbc translate days minutes deffile defdir query iocfile (Some v) username ioctype
  | opt_username v => Build_Args prefix profile cbc translate days minutes deffile defdir query iocfile hostname (Some v) ioctype
  | opt_ioctype v => Build_Args prefix profile cbc translate days minutes deffile defdir query iocfile hostname username (Some v)
  end.

(** The flags of the required mutually exclusive group [i]. *)
Definition group_flag (o : cli_opt) : option string :=
  match o with
  | opt_deffile _ => Some "--deffile"
  | opt_defdir _ => Some "--defdir"
  | opt_query _ => Some "--query"
  | opt_iocfile _ => Some "--iocfile"
  | _ => None
  end.

(** [parser.error(msg)]: usage and message on stderr, exit status 2. *)
Definition parser_error {A} (msg : string) : M A :=
  emit (ParserError msg) ;; sys_exit 2.

(** The pass of [parse_args] over the occurrences: [seen] is the group flag
    met so far; a second, different group flag is refused. *)
Fixpoint parse_loop (argv : list cli_opt) (seen : option string) (a : Args)
    : M Args :=
  match argv with
  | [] =>
      match seen with
      | Some _ => mret a
      | None =>
          parser_error
            "one of the arguments --deffile --defdir --query --iocfile is required"
      end
  | o :: rest =>
      match group_flag o, seen with
      | Some f, Some g =>
          if String.eqb f g then parse_loop rest seen (store a o)
          else parser_error
                 ("argument " +:+ f +:+ ": not allowed with argument " +:+ g)
      | Some f, None => parse_loop rest (Some f) (store a o)
      | None, _ => parse_loop rest seen (store a o)
      end
  end.

Definition parse_args (argv : list cli_opt) : M Args :=
  parse_loop argv None default_args.

(** ** The world a run sees *)

(** A definition document: program name to criteria group, in the order of
    the document. *)
Definition Programs : Type := list (string * Criteria).

Record World := {
  (** [os.path.exists] *)
  path_exists : string → bool;
  (** [os.walk(top)]: the directories below [top] with their file names *)
  walk : string → list (string * list string);
  (** the text of a file, [None] when [open] fails *)
  file_text : string → option string;
  (** [json.load] on the text of a file, [None] when it raises *)
  json_load : string → option Programs;
  (** [(datetime.now() - timedelta(minutes=m)).strftime('%Y-%m-%dT%H:%M:%S.%fZ')];
      [timedelta(days=d)] is [timedelta(minutes=d*1440)] *)
  start_time_ago : Z → string;
  (** [CbEnterpriseResponseAPI(profile=...)]: what it answers to a query *)
  response_select : string → string → stream r_Process;
  (** [CbThreatHunterAPI(profile=...)]: its query conversion and its answers *)
  cloud_convert : string → string → exn + string;
  cloud_select : string → string → stream th_Process
}.

(** ** [main] *)

Definition dquote : string := String "034" "".

(** Lines 147-150: the name of the output file. *)
Definition output_filename (args : Args) : string :=
  if Py.truthy_opt (arg_prefix args)
  then default "" (arg_prefix args) +:+ "-survey.csv"
  else "survey.csv".

(** Lines 154-155 and 166-167: the field names of the active backend. *)
Definition host_key (args : Args) : string :=
  if arg_cbc args then "device_name" else "hostname".

Definition user_key (args : Args) : string :=
  if arg_cbc args then "process_username" else "username".

(** Lines 156 and 168: the connection. *)
Definition connect (w : World) (args : Args) : cb_conn :=
  if arg_cbc args
  then CbThreatHunterAPI (cloud_convert w (arg_profile args))
                         (cloud_select w (arg_profile args))
  else CbEnterpriseResponseAPI (response_select w (arg_profile args)).

(** The two time-window clauses of the cloud dialect and of the on-premises
    dialect, for a window of [m] minutes. *)
Definition cloud_window (w : World) (m : Z) : string :=
  " process_start_time:[" +:+ start_time_ago w m +:+ " TO *]".

Definition response_window (m : Z) : string :=
  " start:-" +:+ Py.fmt_d m +:+ "m".

(** Lines 152-172: [query_base] after the time window. *)
Definition time_window (w : World) (args : Args) : string :=
  let query_base := "" in
  if arg_cbc args then
    if Py.truthy_int (arg_days args) then
      query_base +:+ cloud_window w (default 0 (arg_days args) * 1440)
    else if Py.truthy_int (arg_minutes args) then
      query_base +:+ cloud_window w (default 0 (arg_minutes args))
    else query_base
  else
    if Py.truthy_int (arg_days args) then
      query_base +:+ response_window (default 0 (arg_days args) * 1440)
    else if Py.truthy_int (arg_minutes args) then
      query_base +:+ response_window (default 0 (arg_minutes args))
    else query_base.

(** [args.query and key in args.query] *)
Definition in_query (key : string) (args : Args) : bool :=
  Py.truthy_opt (arg_query args) && Py.contains key (default "" (arg_query args)).

(** Lines 174-177. *)
Definition hostname_filter (args : Args) (query_base : string) : M string :=
  if Py.truthy_opt (arg_hostname args) then
    (if in_query (host_key args) args then
       parser_error ("Cannot use --hostname with " +:+ dquote +:+ host_key args
                     +:+ ":" +:+ dquote +:+ " (in query)")
     else mret ()) ;;
    mret (query_base +:+ " " +:+ host_key args +:+ ":"
          +:+ default "" (arg_hostname args))
  else mret query_base.

(** Lines 178-181. *)
Definition username_filter (args : Args) (query_base : string) : M string :=
  if Py.truthy_opt (arg_username args) then
    (if in_query (user_key args) args then
       parser_error ("Cannot use --username with " +:+ dquote +:+ user_key args
                     +:+ ":" +:+ dquote +:+ " (in query)")
     else mret ()) ;;
    mret (query_base +:+ " " +:+ user_key args +:+ ":"
          +:+ default "" (arg_username args))
  else mret query_base.

(** Lines 183-196: the definition files to process. *)
Definition find_definition_files (w : World) (args : Args) : M (list string) :=
  if Py.truthy_opt (arg_deffile args) then
    let deffile := default "" (arg_deffile args) in
    if negb (path_exists w deffile) then
      err "deffile does not exist" ;; sys_exit 1
    else mret [deffile]
  else if Py.truthy_opt (arg_defdir args) then
    let defdir := default "" (arg_defdir args) in
    if negb (path_exists w defdir) then
      err "defdir does not exist" ;; sys_exit 1
    else
      mret (flat_map
              (λ '(root, files),
                 Py.path_join root <$> filter (λ f, Is_true (Py.endswith ".json" f)) files)
              (walk w defdir))
  else mret [].

Definition header : list string :=
  ["endpoint"; "username"; "process_path"; "cmdline"; "program"; "source"].

(** [row = [r[0], r[1], r[2], r[3], program, source]] *)
Definition make_row (r : Result) (program source : string) : list string :=
  let '(r0, r1, r2, r3) := r in [r0; r1; r2; r3; program; source].

(** [for r in result_set: writer.writerow(row)]; the set is walked in the
    order of its enumeration. *)
Definition write_rows (result_set : gset Result) (program source : string)
    : M unit :=
  for_each (elements result_set) (λ r, emit (WriteRow (make_row r program source))).

(** [log(': %s results' % result_count)] *)
Definition log_count (result_set : gset Result) : M unit :=
  let result_count := size result_set in
  log (": " +:+ pretty result_count +:+ " results") newline.

(** Lines 205-216: a single query. *)
Definition survey_query (cb : cb_conn) (args : Args) (query_base : string)
    : M unit :=
  let query := default "" (arg_query args) in
  log "Processing query" "" ;;
  result_set ← process_search cb query query_base (arg_translate args);
  log_count result_set ;;
  write_rows result_set query "query".

(** Lines 221-234: the treatment of one line of the indicator file. *)
Definition survey_ioc (cb : cb_conn) (args : Args) (query_base : string)
    (ioc : string) : M unit :=
  let ioc := Py.strip ioc in
  let query := default "None" (arg_ioctype args) +:+ ":" +:+ ioc in
  result_set ← process_search cb query query_base (arg_translate args);
  log ("--> " +:+ ioc) "" ;;
  log_count result_set ;;
  write_rows result_set ioc "ioc".

(** Lines 217-234: an indicator file. *)
Definition survey_iocfile (w : World) (cb : cb_conn) (args : Args)
    (query_base : string) : M unit :=
  let iocfile := default "" (arg_iocfile args) in
  match file_text w iocfile with
  | None => raise (OtherError "IOError")
  | Some text =>
      let data := Py.readlines text in
      log ("Processing IOC file: " +:+ iocfile) newline ;;
      for_each data (survey_ioc cb args query_base)
  end.

(** Lines 244-256: one program of a definition file. *)
Definition survey_program (cb : cb_conn) (args : Args) (query_base : string)
    (source : string) (item : string * Criteria) : M unit :=
  let '(program, criteria) := item in
  log ("--> " +:+ program) "" ;;
  result_set ← nested_process_search cb criteria query_base (arg_translate args);
  log_count result_set ;;
  write_rows result_set program source.

(** Lines 237-256: one definition file. *)
Definition survey_definition_file (w : World) (cb : cb_conn) (args : Args)
    (query_base : string) (definition_file : string) : M unit :=
  log ("Processing definition file: " +:+ definition_file) newline ;;
  let basename := Py.basename definition_file in
  let source := (Py.splitext basename).1 in
  match file_text w definition_file with
  | None => raise (OtherError "IOError")
  | Some text =>
      match json_load w text with
      | None => raise (OtherError "ValueError")
      | Some programs =>
          for_each programs (survey_program cb args query_base source)
      end
  end.

(** Lines 144-260: [main] after [parse_args]. *)
Definition main_body (w : World) (args : Args) : M unit :=
  (if bool_decide (arg_iocfile args ≠ None) && bool_decide (arg_ioctype args = None)
   then parser_error "--iocfile requires --ioctype" else mret ()) ;;
  let output_filename := output_filename args in
  let cb := connect w args in
  let query_base := time_window w args in
  query_base ← hostname_filter args query_base;
  query_base ← username_filter args query_base;
  definition_files ← find_definition_files w args;
  emit (OpenOutput output_filename) ;;
  emit (WriteRow header) ;;
  (if Py.truthy_opt (arg_query args) then survey_query cb args query_base
   else if Py.truthy_opt (arg_iocfile args) then
     survey_iocfile w cb args query_base
   else
     for_each definition_files (survey_definition_file w cb args query_base)) ;;
  emit CloseOutput ;;
  log (newline +:+ "Results saved: " +:+ output_filename) newline.

Definition main (w : World) (argv : list cli_opt) : M unit :=
  args ← parse_args argv;
  main_body w args.

(** ** Vocabulary of the properties *)

(** The computation ends with a value. *)
Definition returns {A} (m : M A) : Prop := ∃ a, result m = Return a.

(** The result set a search returned, empty when it did not return. *)
Definition returned (m : M (gset Result)) : gset Result :=
  match result m with
  | Return found => found
  | _ => ∅
  end.

(** The queries of the [Select] events of a trace, in order. *)
Definition selects (t : list event) : list string :=
  omap (λ e, match e with Select q => Some q | _ => None end) t.

(** The rows of the [WriteRow] events of a trace, in order. *)
Definition rows (t : list event) : list (list string) :=
  omap (λ e, match e with WriteRow r => Some r | _ => None end) t.

(** The OR-clause of the specification: the atoms in order, each but the
    first preceded by [" OR "]. *)
Fixpoint or_tail (atoms : list string) : string :=
  match atoms with
  | [] => ""
  | a :: rest => " OR " +:+ a +:+ or_tail rest
  end.

Definition or_clause (atoms : list string) : string :=
  match atoms with
  | [] => ""
  | a :: rest => a +:+ or_tail rest
  end.

(** The per-field searches of a criteria group, one per item. *)
Definition field_searches (cb : cb_conn) (criteria : Criteria)
    (query_base : string) (translate : bool) : list (M (gset Result)) :=
  (λ item, process_search cb (field_query item.1 item.2) query_base translate)
    <$> criteria.

(** The host and user constraints lines 177 and 181 append. *)
Definition host_clause (args : Args) : string :=
  if Py.truthy_opt (arg_hostname args)
  then " " +:+ host_key args +:+ ":" +:+ default "" (arg_hostname args)
  else "".

Definition user_clause (args : Args) : string :=
  if Py.truthy_opt (arg_username args)
  then " " +:+ user_key args +:+ ":" +:+ default "" (arg_username args)
  else "".

(** The base fragment of a run that passes validation. *)
Definition base_fragment (w : World) (args : Args) : string :=
  (time_window w args +:+ host_clause args) +:+ user_clause args.

(** The part of [main_body] before the output file is opened (lines 144-196):
    validation, the base fragment and the definition files. *)
Definition preamble (w : World) (args : Args) : M (string * list string) :=
  (if bool_decide (arg_iocfile args ≠ None) && bool_decide (arg_ioctype args = None)
   then parser_error "--iocfile requires --ioctype" else mret ()) ;;
  query_base ← hostname_filter args (time_window w args);
  query_base ← username_filter args query_base;
  definition_files ← find_definition_files w args;
  mret (query_base, definition_files).

(** The part of [main_body] between the header and the close (lines 205-256). *)
Definition survey (w : World) (args : Args) (query_base : string)
    (definition_files : list string) : M unit :=
  let cb := connect w args in
  if Py.truthy_opt (arg_query args) then survey_query cb args query_base
  else if Py.truthy_opt (arg_iocfile args) then
    survey_iocfile w cb args query_base
  else
    for_each definition_files (survey_definition_file w cb args query_base).

(** Kinds of events. *)
Definition is_diagnostic (e : event) : bool :=
  match e with ParserError _ | Stderr _ => true | _ => false end.



Definition is_open (e : event) : bool :=
  match e with OpenOutput _ => true | _ => false end.

Definition is_close (e : event) : bool :=
  match e with CloseOutput => true | _ => false end.

(** How many events of a trace satisfy [p]; how many times the output file is
    opened and closed. *)
Fixpoint count (p : event → bool) (t : list event) : nat :=
  match t with
  | [] => 0%nat
  | e :: rest => ((if p e then 1 else 0) + count p rest)%nat
  end.

Definition opens (t : list event) : nat := count is_open t.
Definition closes (t : list event) : nat := count is_close t.

(** The criteria sources present in a namespace. *)
Definition sources (a : Args) : list string :=
  (if arg_deffile a is Some _ then ["--deffile"] else [])
  ++ (if arg_defdir a is Some _ then ["--defdir"] else [])
  ++ (if arg_query a is Some _ then ["--query"] else [])
  ++ (if arg_iocfile a is Some _ then ["--iocfile"] else []).

(** The events of the survey proper: progress on stdout, calls of the backend
    and rows of the output file. *)
Definition is_survey_event (e : event) : bool :=
  match e with
  | Stdout _ | ConvertQuery _ | Select _ | WriteRow _ => true
  | _ => false
  end.

(** A computation of the survey: it performs survey events only and never
    calls [sys.exit]. *)
Definition tame {A} (m : M A) : Prop :=
  Forall (λ e, is_survey_event e = true) (trace m) ∧ ∀ c, result m ≠ SysExit c.


(** The value of the last [--days] and of the last [--minutes] on the command
    line, and the last of the two kinds of flag. *)
Fixpoint last_days (argv : list cli_opt) : option Z :=
  match argv with
  | [] => None
  | o :: rest =>
      match last_days rest, o with
      | Some d, _ => Some d
      | None, opt_days d => Some d
      | None, _ => None
      end
  end.

Fixpoint last_minutes (argv : list cli_opt) : option Z :=
  match argv with
  | [] => None
  | o :: rest =>
      match last_minutes rest, o with
      | Some m, _ => Some m
      | None, opt_minutes m => Some m
      | None, _ => None
      end
  end.

Fixpoint last_time_flag (argv : list cli_opt) : option cli_opt :=
  match argv with
  | [] => None
  | o :: rest =>
      match last_time_flag rest, o with
      | Some f, _ => Some f
      | None, opt_days _ | None, opt_minutes _ => Some o
      | None, _ => None
      end
  end.



(** The answer of a backend to the query string it receives, as rows. *)
Definition answer (cb : cb_conn) (query : string) : stream Result :=
  match cb with
  | CbEnterpriseResponseAPI select_where =>
      {| records := r_row <$> records (select_where query);
         ending := ending (select_where query) |}
  | CbThreatHunterAPI _ select_where =>
      {| records := th_row <$> records (select_where query);
         ending := ending (select_where query) |}
  end.

(** The query [process_search] appends the base fragment to: the query it was
    given or, on the cloud backend with translation, its conversion ([None]
    when the conversion raises). *)
Definition to_send (cb : cb_conn) (query : string) (translate : bool)
    : option string :=
  match cb with
  | CbThreatHunterAPI convert_query _ =>
      if translate then
        match convert_query query with inr query' => Some query' | inl _ => None end
      else Some query
  | CbEnterpriseResponseAPI _ => Some query
  end.

(** The conversion event that precedes the search, if any. *)
Definition conversion (cb : cb_conn) (query : string) (translate : bool)
    : list event :=
  match cb with
  | CbThreatHunterAPI _ _ => if translate then [ConvertQuery query] else []
  | CbEnterpriseResponseAPI _ => []
  end.

(** The two messages of [process_search]. *)
Definition caught_ctrl_c : string :=
  ("Caught CTRL-C. Returning what we have . . ." +:+ newline) +:+ newline.

Definition cannot_convert (query : string) : string :=
  (newline +:+ "Can't convert query: " +:+ query +:+ ". Skipping . . .")
  +:+ newline.

(** The events of one indicator once its search has returned [found]. *)
Definition ioc_report (found : gset Result) (ioc : string) : list event :=
  Stdout ("--> " +:+ ioc)
  :: trace (log_count found)
  ++ ((λ r, WriteRow (make_row r ioc "ioc")) <$> elements found).

(** The last line [main] prints. *)
Definition results_saved (args : Args) : string :=
  (newline +:+ "Results saved: " +:+ output_filename args) +:+ newline.

(** Two characters that are equal or the two cases of one ASCII letter, and
    two strings that differ at most in the case of their letters. *)
Definition is_upper (c : ascii) : bool :=
  let n := N_of_ascii c in ((65 <=? n) && (n <=? 90))%N.

Definition same_letter (a b : ascii) : bool :=
  Ascii.eqb a b
  || (is_upper a && Ascii.eqb b (ascii_of_N (N_of_ascii a + 32)))
  || (is_upper b && Ascii.eqb a (ascii_of_N (N_of_ascii b + 32))).

Fixpoint same_but_case (s t : string) : bool :=
  match s, t with
  | EmptyString, EmptyString => true
  | String a s', String b t' => same_letter a b && same_but_case s' t'
  | _, _ => false
  end.


(** The source label of a definition file. *)
Definition source_label (definition_file : string) : string :=
  (Py.splitext (Py.basename definition_file)).1.


(** ** Sample worlds *)

Module Sample.

Definition pc1_upper : r_Process :=
  {| r_hostname := "PC1"; r_username := "Al"; r_path := "c"; r_cmdline := "c" |}.

Definition pc1_lower : r_Process :=
  {| r_hostname := "pc1"; r_username := "al"; r_path := "c"; r_cmdline := "c" |}.

Definition pc2 : r_Process :=
  {| r_hostname := "pc2"; r_username := "bo"; r_path := "d"; r_cmdline := "d" |}.

Definition exhausted {A} (l : list A) : stream A :=
  {| records := l; ending := None |}.

Definition interrupted {A} (l : list A) : stream A :=
  {| records := l; ending := Some KeyboardInterrupt |}.

Definition broken {A} (l : list A) : stream A :=
  {| records := l; ending := Some (OtherError "ApiError") |}.

(** A world with no files, whose backends find nothing and whose cloud backend
    converts every query to itself. *)
Definition empty_world : World :=
  {| path_exists := λ _, false;
     walk := λ _, [];
     file_text := λ _, None;
     json_load := λ _, None;
     start_time_ago := λ m, "now-" +:+ Py.fmt_d m +:+ "m";
     response_select := λ _ _, exhausted [];
     cloud_convert := λ _ q, inr q;
     cloud_select := λ _ _, exhausted [] |}.

(** The same world with an on-premises backend that fails on every query
    before it yields a record. *)
Definition broken_world : World :=
  {| path_exists := λ _, false;
     walk := λ _, [];
     file_text := λ _, None;
     json_load := λ _, None;
     start_time_ago := λ m, "now-" +:+ Py.fmt_d m +:+ "m";
     response_select := λ _ _, broken [];
     cloud_convert := λ _ q, inr q;
     cloud_select := λ _ _, exhausted [] |}.

End Sample.

Module SampleCriteria.

(** An on-premises backend that answers every query with the same record, and
    a criteria group of two fields. *)
Definition backend : cb_conn :=
  CbEnterpriseResponseAPI (λ _, Sample.exhausted [Sample.pc2]).

Definition group : Criteria := [("a", ["x"; "y"]); ("b", ["z"])].

End SampleCriteria.

Module SampleCase.

(** An on-premises backend that yields the same process twice, with the host
    and user names in different case. *)
Definition select_where (q : string) : stream r_Process :=
  Sample.exhausted [Sample.pc1_upper; Sample.pc1_lower].

End SampleCase.

Module SampleDefinition.

(** The first scenario of the specification: the definition file
    [browsers.json] defines the program [chrome] by one process name; the
    on-premises backend knows one matching process. *)
Definition world : World :=
  {| path_exists := λ p, String.eqb p "browsers.json";
     walk := λ _, [];
     file_text := λ p,
       if String.eqb p "browsers.json" then Some "{...}" else None;
     json_load := λ _, Some [("chrome", [("process_name", ["chrome.exe"])])];
     start_time_ago := λ m, "now-" +:+ Py.fmt_d m +:+ "m";
     response_select := λ _ _, Sample.exhausted [Sample.pc2];
     cloud_convert := λ _ q, inr q;
     cloud_select := λ _ _, Sample.exhausted [] |}.

Definition argv : list cli_opt := [opt_deffile "browsers.json"].

Definition args : Args := store default_args (opt_deffile "browsers.json").

End SampleDefinition.

Module SampleInterrupt.

(** An on-premises backend interrupted after its first record. *)
Definition backend : cb_conn :=
  CbEnterpriseResponseAPI (λ _, Sample.interrupted [Sample.pc2]).

End SampleInterrupt.

Module SampleCloud.

(** A cloud backend that converts the query ["ok"] to ["OK"] and fails with a
    server error on every other query. *)
Definition convert_query (q : string) : exn + string :=
  if String.eqb q "ok" then inr "OK" else inl ServerError.

Definition select_where (q : string) : stream th_Process := Sample.exhausted [].

Definition backend : cb_conn := CbThreatHunterAPI convert_query select_where.

End SampleCloud.

Module SampleIoc.

(** A world whose only file is the indicator file [iocs.txt] with the two
    lines of the specification's scenario; the backends find nothing. *)
Definition world : World :=
  {| path_exists := λ p, String.eqb p "iocs.txt";
     walk := λ _, [];
     file_text := λ p,
       if String.eqb p "iocs.txt"
       then Some ("1.2.3.4" +:+ newline +:+ "5.6.7.8")
       else None;
     json_load := λ _, None;
     start_time_ago := λ m, "now-" +:+ Py.fmt_d m +:+ "m";
     response_select := λ _ _, Sample.exhausted [];
     cloud_convert := λ _ q, inr q;
     cloud_select := λ _ _, Sample.exhausted [] |}.

Definition argv : list cli_opt := [opt_iocfile "iocs.txt"; opt_ioctype "ipaddr"].

Definition args : Args :=
  store (store default_args (opt_iocfile "iocs.txt")) (opt_ioctype "ipaddr").

End SampleIoc.

(** ** Vocabulary of the further properties *)

(** Every query the computation sends to the backend satisfies [P]. *)
Definition queries_satisfy {A} (P : string → Prop) (m : M A) : Prop :=
  Forall P (selects (trace m)).

(** The criteria flags of a command line, in order. *)
Definition source_flags (argv : list cli_opt) : list string :=
  omap group_flag argv.

(** No character of the string is [c]. *)
Fixpoint lacks (c : ascii) (s : string) : bool :=
  match s with
  | EmptyString => true
  | String a r => negb (Ascii.eqb a c) && lacks c r
  end.

Module SampleFilter.

(** The indicator scenario restricted to one host over the last five
    minutes. *)
Definition argv : list cli_opt :=
  [opt_iocfile "iocs.txt"; opt_ioctype "ipaddr"; opt_minutes 5;
   opt_hostname "h"].

Definition args : Args :=
  store (store (store (store default_args (opt_iocfile "iocs.txt"))
                      (opt_ioctype "ipaddr")) (opt_minutes 5))
        (opt_hostname "h").

End SampleFilter.

(** The exception the conversion of the query raises, if the conversion is
    attempted and fails. *)
Definition conversion_failure (cb : cb_conn) (query : string)
    (translate : bool) : option exn :=
  match cb with
  | CbThreatHunterAPI convert_query _ =>
      if translate then
        match convert_query query with inl e => Some e | inr _ => None end
      else None
  | CbEnterpriseResponseAPI _ => None
  end.

(** Every event of the computation satisfies [P]. *)
Definition events_satisfy {A} (P : event → Prop) (m : M A) : Prop :=
  Forall P (trace m).

Definition is_conversion (e : event) : bool :=
  match e with ConvertQuery _ => true | _ => false end.

Module SampleConversion.

(** A cloud backend whose conversion is interrupted by the operator. *)
Definition backend : cb_conn :=
  CbThreatHunterAPI (λ _, inl KeyboardInterrupt) (λ _, Sample.exhausted []).

End SampleConversion.

Module SampleExhausted.

(** An on-premises backend that yields three records, two of them equal up
    to case, and then is exhausted. *)
Definition backend : cb_conn :=
  CbEnterpriseResponseAPI
    (λ _, Sample.exhausted [Sample.pc1_upper; Sample.pc2; Sample.pc1_lower]).

End SampleExhausted.

Module SampleMissing.

(** [--iocfile gone.txt --ioctype md5] in a world without that file. *)
Definition argv : list cli_opt := [opt_iocfile "gone.txt"; opt_ioctype "md5"].

Definition args : Args :=
  store (store default_args (opt_iocfile "gone.txt")) (opt_ioctype "md5").

End SampleMissing.

Module SampleEmpty.

(** [--query ""]: a query flag with an empty value. *)
Definition argv : list cli_opt := [opt_query ""].

Definition args : Args := store default_args (opt_query "").

End SampleEmpty.

Module SampleDirectory.

(** A directory [defs] with a definition file, another file, and a
    subdirectory with a second definition file. *)
Definition world : World :=
  {| path_exists := λ p, String.eqb p "defs";
     walk := λ _, [("defs", ["a.json"; "notes.txt"]); ("defs/sub", ["b.json"])];
     file_text := λ _, None;
     json_load := λ _, None;
     start_time_ago := λ m, "now-" +:+ Py.fmt_d m +:+ "m";
     response_select := λ _ _, Sample.exhausted [];
     cloud_convert := λ _ q, inr q;
     cloud_select := λ _ _, Sample.exhausted [] |}.

Definition args : Args := store default_args (opt_defdir "defs").

End SampleDirectory.

Module SampleWindow.

(** Two namespaces for the same window: one day, and 1440 minutes. *)
Definition one_day : Args := store (store default_args (opt_query "q")) (opt_days 1).

Definition minutes_1440 : Args :=
  store (store default_args (opt_query "q")) (opt_minutes 1440).

End SampleWindow.

(** Every character of the string is a dot. *)
Fixpoint all_dots (s : string) : bool :=
  match s with
  | EmptyString => true
  | String a r => Ascii.eqb a "." && all_dots r
  end.

(** Strings made of whitespace only, strings that start with a character
    other than whitespace, and strings that end with one. *)
Fixpoint all_space (s : string) : bool :=
  match s with
  | EmptyString => true
  | String a r => Py.isspace a && all_space r
  end.

Definition starts_solid (s : string) : bool :=
  match s with
  | EmptyString => false
  | String a _ => negb (Py.isspace a)
  end.

Fixpoint ends_solid (s : string) : bool :=
  match s with
  | EmptyString => false
  | String a EmptyString => negb (Py.isspace a)
  | String _ r => ends_solid r
  end.

(** ** Vocabulary of the normalisation of records *)

(** No character of the string is an upper-case ASCII letter. *)
Fixpoint no_upper (s : string) : bool :=
  match s with
  | EmptyString => true
  | String a r => negb (is_upper a) && no_upper r
  end.

Module SampleBlank.

(** An indicator file with two indicators and a blank line between them. *)
Definition text : string :=
  "1.2.3.4" +:+ newline +:+ newline +:+ "5.6.7.8" +:+ newline.

Definition world : World :=
  {| path_exists := λ p, String.eqb p "iocs.txt";
     walk := λ _, [];
     file_text := λ p, if String.eqb p "iocs.txt" then Some text else None;
     json_load := λ _, None;
     start_time_ago := λ m, "now-" +:+ Py.fmt_d m +:+ "m";
     response_select := λ _ _, Sample.exhausted [];
     cloud_convert := λ _ q, inr q;
     cloud_select := λ _ _, Sample.exhausted [] |}.

End SampleBlank.

(** * Properties *)

(** ** The string and path primitives on sample inputs *)

Example lower_mixed : Py.lower "Host-01.Corp" = "host-01.corp".
Proof. reflexivity. Qed.

Example strip_line : Py.strip (" 1.2.3.4 " +:+ String "010" "") = "1.2.3.4".
Proof. reflexivity. Qed.

Example join_three : Py.join " OR " ["a"; "b"; "c"] = "a OR b OR c".
Proof. reflexivity. Qed.

Example readlines_two :
  Py.readlines ("1.2.3.4" +:+ String "010" "" +:+ "5.6.7.8")
  = ["1.2.3.4" +:+ String "010" ""; "5.6.7.8"].
Proof. reflexivity. Qed.

Example readlines_crlf :
  Py.readlines ("a" +:+ String "013" (String "010" "") +:+ "b" +:+ String "013" "c")
  = ["a" +:+ String "010" ""; "b" +:+ String "010" ""; "c"].
Proof. reflexivity. Qed.

Example basename_ex : Py.basename "defs/sub/browsers.json" = "browsers.json".
Proof. reflexivity. Qed.

Example splitext_ex : Py.splitext "browsers.json" = ("browsers", ".json").
Proof. reflexivity. Qed.

Example splitext_dotfile : Py.splitext ".json" = (".json", "").
Proof. reflexivity. Qed.

Example splitext_two : Py.splitext "a.tar.gz" = ("a.tar", ".gz").
Proof. reflexivity. Qed.

Example fmt_d_ex : Py.fmt_d (-1440) = "-1440".
Proof. vm_compute. reflexivity. Qed.

Example contains_ex : Py.contains "hostname" "parent_hostname:x" = true.
Proof. reflexivity. Qed.

(** ** The computation monad *)

Lemma string_app_cons (x : ascii) (a b : string) :
  String x a +:+ b = String x (a +:+ b).
Proof. reflexivity. Qed.

Lemma string_app_assoc (a b c : string) : (a +:+ b) +:+ c = a +:+ (b +:+ c).
Proof.
  induction a as [|x a IH]; [done|].
  rewrite !string_app_cons. by rewrite IH.
Qed.

Lemma string_app_nil_r (a : string) : a +:+ "" = a.
Proof.
  induction a as [|x a IH]; [done|].
  rewrite string_app_cons. by rewrite IH.
Qed.

Lemma M_eta {A} (m : M A) : m = Run (trace m) (result m).
Proof. by destruct m. Qed.

Lemma bind_return {A B} (m : M A) (f : A → M B) a :
  result m = Return a →
  (m ≫= f) = Run (trace m ++ trace (f a)) (result (f a)).
Proof. intros H. unfold mbind, M_bind. by rewrite H. Qed.

Lemma bind_exit {A B} (m : M A) (f : A → M B) c :
  result m = SysExit c → (m ≫= f) = Run (trace m) (SysExit c).
Proof. intros H. unfold mbind, M_bind. by rewrite H. Qed.

Lemma bind_raise {A B} (m : M A) (f : A → M B) e :
  result m = Raise e → (m ≫= f) = Run (trace m) (Raise e).
Proof. intros H. unfold mbind, M_bind. by rewrite H. Qed.

Lemma bind_emit {B} (e : event) (k : M B) :
  (emit e ;; k) = Run (e :: trace k) (result k).
Proof. reflexivity. Qed.

Lemma bind_mret {A B} (a : A) (f : A → M B) : (mret a ≫= f) = f a.
Proof. unfold mbind, M_bind; simpl. by destruct (f a). Qed.

Lemma bind_pure {A B} (a : A) (f : A → M B) : (Run [] (Return a) ≫= f) = f a.
Proof. apply bind_mret. Qed.

(** The events of [m ≫= f] start with the events of [m]. *)
Lemma trace_bind_prefix {A B} (m : M A) (f : A → M B) :
  trace m `prefix_of` trace (m ≫= f).
Proof.
  unfold mbind, M_bind. destruct (result m); simpl.
  - by apply prefix_app_r.
  - done.
  - done.
Qed.

(** ** [process_search]: basic facts *)

Lemma collect_spec {A} (row : A → Result) procs results :
  collect row procs results = results ∪ list_to_set (row <$> procs).
Proof.
  revert results. induction procs as [|p procs IH]; intros results; simpl.
  - set_solver.
  - rewrite IH. set_solver.
Qed.

(** [finish] returns or raises; it never exits. *)
Lemma finish_result results e :
  result (finish results e) =
    match e with
    | None | Some KeyboardInterrupt => Return results
    | Some e' => Raise e'
    end.
Proof. by destruct e as [[| |what]|]. Qed.

(** ** C1: the query built per field *)

Lemma join_or_clause (atoms : list string) :
  Py.join " OR " atoms = or_clause atoms.
Proof.
  destruct atoms as [|a rest]; [done|].
  revert a. induction rest as [|b rest IH]; intros a.
  - simpl. by rewrite string_app_nil_r.
  - change (Py.join " OR " (a :: b :: rest))
      with (a +:+ " OR " +:+ Py.join " OR " (b :: rest)).
    rewrite IH. reflexivity.
Qed.

Lemma nested_loop_all_return cb criteria query_base translate results :
  Forall returns (field_searches cb criteria query_base translate) →
  nested_loop cb criteria query_base translate results
  = Run (concat (trace <$> field_searches cb criteria query_base translate))
        (Return (results ∪
                 ⋃ (returned <$> field_searches cb criteria query_base translate))).
Proof.
  revert results.
  induction criteria as [|[search_field terms] rest IH]; intros results Hall.
  - simpl. unfold mret, M_ret. f_equal. f_equal. set_solver.
  - unfold field_searches in Hall. rewrite fmap_cons in Hall.
    apply Forall_cons in Hall as [[found Hfound] Hrest].
    simpl in Hfound. simpl nested_loop.
    rewrite (bind_return _ _ found Hfound).
    rewrite (IH (results ∪ found) Hrest). simpl.
    unfold returned at 2. simpl. rewrite Hfound.
    f_equal. f_equal. set_solver.
Qed.

(** Every query handed to the backend ends with the base fragment. *)
Lemma process_search_selects cb query query_base translate :
  Forall (λ q, ∃ p, q = p +:+ query_base)
         (selects (trace (process_search cb query query_base translate))).
Proof.
  destruct cb as [sel|conv sel]; unfold process_search;
    [|destruct translate; [destruct (conv query) as [[| |what]|query']|]];
    cbn; try destruct (ending (sel _)) as [[| |what']|]; cbn;
    repeat (apply Forall_cons_2; [by eexists|]); apply Forall_nil_2.
Qed.

Lemma selects_app t1 t2 :
  selects (t1 ++ t2) = (selects t1 ++ selects t2)%list.
Proof. unfold selects. apply omap_app. Qed.

Lemma nested_loop_selects cb criteria query_base translate results :
  Forall (λ q, ∃ p, q = p +:+ query_base)
         (selects (trace (nested_loop cb criteria query_base translate results))).
Proof.
  revert results.
  induction criteria as [|[search_field terms] rest IH]; intros results.
  - constructor.
  - simpl nested_loop.
    pose proof (process_search_selects cb (field_query search_field terms)
                  query_base translate) as Hone.
    destruct (result (process_search cb (field_query search_field terms)
                        query_base translate)) as [found|c|e] eqn:Hres.
    + rewrite (bind_return _ _ found Hres). simpl. rewrite selects_app.
      apply Forall_app. split; [done | apply IH].
    + by rewrite (bind_exit _ _ c Hres).
    + by rewrite (bind_raise _ _ e Hres).
Qed.

(** On the on-premises backend a search that returns issued one query: the
    field's clause followed by the base fragment. *)
Lemma response_search_selects sel query query_base translate :
  selects (trace (process_search (CbEnterpriseResponseAPI sel) query
                    query_base translate))
  = [query +:+ query_base].
Proof. cbn. destruct (ending (sel _)) as [[| |what]|]; reflexivity. Qed.

(** C1. For a field [F] with terms [t1 .. tN], [nested_process_search] builds
    the one query ["(F:t1 OR ... OR F:tN)"]: a single parenthesized OR-clause
    of [N] atoms [F:term] in the order of the terms.  A group with several
    fields gives one search per field, each handed to [process_search] with
    the shared base fragment, which ends every query sent to the backend; when
    the searches return, the events of the group are those of the per-field
    searches in order and its result set is the union of theirs. *)
Theorem C1_one_or_clause_per_field
    (cb : cb_conn) (criteria : Criteria) (query_base : string)
    (translate : bool)
    (Hret : Forall returns (field_searches cb criteria query_base translate)) :
  Forall (λ item,
            ∃ atoms : list string,
              field_query item.1 item.2 = "(" +:+ or_clause atoms +:+ ")"
              ∧ length atoms = length item.2
              ∧ ∀ i : nat,
                  atoms !! i = (λ term, item.1 +:+ ":" +:+ term) <$> item.2 !! i)
         criteria
  ∧ length (field_searches cb criteria query_base translate) = length criteria
  ∧ trace (nested_process_search cb criteria query_base translate)
    = concat (trace <$> field_searches cb criteria query_base translate)
  ∧ result (nested_process_search cb criteria query_base translate)
    = Return (⋃ (returned <$> field_searches cb criteria query_base translate))
  ∧ Forall (λ q, ∃ p, q = p +:+ query_base)
           (selects (trace (nested_process_search cb criteria query_base translate)))
  ∧ match cb with
    | CbEnterpriseResponseAPI _ =>
        selects (trace (nested_process_search cb criteria query_base translate))
        = (λ item, field_query item.1 item.2 +:+ query_base) <$> criteria
    | CbThreatHunterAPI _ _ => True
    end.
Proof.
  assert (Hrun := nested_loop_all_return cb criteria query_base translate ∅ Hret).
  fold (nested_process_search cb criteria query_base translate) in Hrun.
  split; [|split; [|split; [|split; [|split]]]].
  - apply Forall_forall. intros [search_field terms] _. simpl.
    exists ((λ term, search_field +:+ ":" +:+ term) <$> terms).
    split; [|split].
    + unfold field_query. by rewrite join_or_clause.
    + by rewrite length_fmap.
    + intros i. by rewrite list_lookup_fmap.
  - unfold field_searches. by rewrite length_fmap.
  - by rewrite Hrun.
  - rewrite Hrun. simpl. f_equal. set_solver.
  - apply nested_loop_selects.
  - destruct cb as [sel|conv sel]; [|done].
    rewrite Hrun. simpl. clear Hrun Hret.
    induction criteria as [|[search_field terms] rest IH]; [done|].
    unfold field_searches in *. rewrite !fmap_cons. cbn [concat].
    rewrite selects_app, response_search_selects, IH. reflexivity.
Qed.

(** A group of two fields on the on-premises backend: two queries, one per
    field, each ending with the base fragment. *)
Lemma C1_witness_two_fields :
  selects (trace (nested_process_search SampleCriteria.backend
                    SampleCriteria.group " start:-5m" false))
  = ["(a:x OR a:y) start:-5m"; "(b:z) start:-5m"]
  ∧ result (nested_process_search SampleCriteria.backend
              SampleCriteria.group " start:-5m" false)
    = Return (⋃ (returned <$> field_searches SampleCriteria.backend
                                SampleCriteria.group " start:-5m" false)).
Proof.
  destruct (C1_one_or_clause_per_field SampleCriteria.backend
              SampleCriteria.group " start:-5m" false)
    as (_ & _ & _ & Hres & _ & Hsel).
  - repeat (apply Forall_cons_2; [by eexists|]). apply Forall_nil_2.
  - split; [exact Hsel | exact Hres].
Defined.

(** ** The stages of [main] *)

Lemma bind_assoc {A B C} (m : M A) (f : A → M B) (g : B → M C) :
  ((m ≫= f) ≫= g) = (m ≫= λ a, f a ≫= g).
Proof.
  unfold mbind, M_bind. destruct (result m) as [a|c|e]; simpl; [|done|done].
  destruct (result (f a)) as [b|c|e]; simpl; [|done|done].
  by rewrite app_assoc.
Qed.

Lemma bind_ext {A B} (m : M A) (f g : A → M B) :
  (∀ a, f a = g a) → (m ≫= f) = (m ≫= g).
Proof.
  intros H. unfold mbind, M_bind.
  destruct (result m) as [a|c|e]; [|done|done]. by rewrite H.
Qed.

Lemma hostname_filter_eq args query_base :
  hostname_filter args query_base =
    if Py.truthy_opt (arg_hostname args) && in_query (host_key args) args
    then parser_error ("Cannot use --hostname with " +:+ dquote +:+ host_key args
                       +:+ ":" +:+ dquote +:+ " (in query)")
    else mret (query_base +:+ host_clause args).
Proof.
  unfold hostname_filter, host_clause.
  destruct (Py.truthy_opt (arg_hostname args)); simpl.
  - by destruct (in_query (host_key args) args).
  - by rewrite string_app_nil_r.
Qed.

Lemma username_filter_eq args query_base :
  username_filter args query_base =
    if Py.truthy_opt (arg_username args) && in_query (user_key args) args
    then parser_error ("Cannot use --username with " +:+ dquote +:+ user_key args
                       +:+ ":" +:+ dquote +:+ " (in query)")
    else mret (query_base +:+ user_clause args).
Proof.
  unfold username_filter, user_clause.
  destruct (Py.truthy_opt (arg_username args)); simpl.
  - by destruct (in_query (user_key args) args).
  - by rewrite string_app_nil_r.
Qed.

(** [main_body] is its preamble, the opening of the output file with the
    header, the survey, and the closing of the file. *)
Lemma main_body_stages w args :
  main_body w args =
    (pre ← preamble w args;
     emit (OpenOutput (output_filename args)) ;;
     emit (WriteRow header) ;;
     survey w args pre.1 pre.2 ;;
     emit CloseOutput ;;
     log (newline +:+ "Results saved: " +:+ output_filename args) newline).
Proof.
  unfold main_body, preamble.
  destruct (bool_decide (arg_iocfile args ≠ None)
            && bool_decide (arg_ioctype args = None)); [reflexivity|].
  rewrite !bind_mret, !hostname_filter_eq.
  destruct (Py.truthy_opt (arg_hostname args) && in_query (host_key args) args);
    [reflexivity|].
  rewrite !bind_mret, !username_filter_eq.
  destruct (Py.truthy_opt (arg_username args) && in_query (user_key args) args);
    [reflexivity|].
  rewrite !bind_mret, bind_assoc.
  apply bind_ext. intros files. by rewrite bind_mret.
Qed.

(** ** The survey performs survey events only and never exits *)

Lemma tame_mret {A} (a : A) : tame (mret a : M A).
Proof. split; [constructor | discriminate]. Qed.

Lemma tame_raise {A} (e : exn) : tame (raise e : M A).
Proof. split; [constructor | discriminate]. Qed.

Lemma tame_emit (e : event) : is_survey_event e = true → tame (emit e).
Proof. intros H. split; [by repeat constructor | discriminate]. Qed.

Lemma tame_bind {A B} (m : M A) (f : A → M B) :
  tame m → (∀ a, tame (f a)) → tame (m ≫= f).
Proof.
  intros [Ht Hr] Hf. unfold mbind, M_bind.
  destruct (result m) as [a|c|e] eqn:Hres; simpl.
  - destruct (Hf a) as [Hta Hra]. split; [by apply Forall_app|done].
  - by destruct (Hr c).
  - split; [done | discriminate].
Qed.

Lemma tame_log msg nl : tame (log msg nl).
Proof. by apply tame_emit. Qed.

Lemma tame_for_each {A} (l : list A) (body : A → M unit) :
  (∀ x, tame (body x)) → tame (for_each l body).
Proof.
  intros Hbody. induction l as [|x l IH]; simpl.
  - apply tame_mret.
  - apply tame_bind; [apply Hbody | intros _; apply IH].
Qed.

Lemma tame_finish results e : tame (finish results e).
Proof.
  destruct e as [[| |what]|]; simpl.
  - apply tame_raise.
  - apply tame_bind; [apply tame_log | intros _; apply tame_mret].
  - apply tame_raise.
  - apply tame_mret.
Qed.

Lemma tame_run_query {A} (sel : string → stream A) row query query_base :
  tame (run_query sel row query query_base).
Proof.
  unfold run_query.
  apply tame_bind; [by apply tame_emit | intros _; apply tame_finish].
Qed.

Lemma tame_process_search cb query query_base translate :
  tame (process_search cb query query_base translate).
Proof.
  destruct cb as [sel|conv sel]; unfold process_search; [apply tame_run_query|].
  destruct translate; [|apply tame_run_query].
  apply tame_bind; [by apply tame_emit | intros _].
  destruct (conv query) as [[| |what]|query'].
  - apply tame_bind; [apply tame_log | intros _; apply tame_mret].
  - apply (tame_finish ∅ (Some KeyboardInterrupt)).
  - apply (tame_finish ∅ (Some (OtherError what))).
  - apply tame_run_query.
Qed.

Lemma tame_nested_loop cb criteria query_base translate results :
  tame (nested_loop cb criteria query_base translate results).
Proof.
  revert results.
  induction criteria as [|[search_field terms] rest IH]; intros results; simpl.
  - apply tame_mret.
  - apply tame_bind; [apply tame_process_search | intros found; apply IH].
Qed.

Lemma tame_write_rows result_set program source :
  tame (write_rows result_set program source).
Proof. apply tame_for_each. intros r. by apply tame_emit. Qed.

Lemma tame_survey_query cb args query_base :
  tame (survey_query cb args query_base).
Proof.
  unfold survey_query.
  apply tame_bind; [apply tame_log | intros _].
  apply tame_bind; [apply tame_process_search | intros result_set].
  apply tame_bind; [apply tame_log | intros _; apply tame_write_rows].
Qed.

Lemma tame_survey_ioc cb args query_base ioc :
  tame (survey_ioc cb args query_base ioc).
Proof.
  unfold survey_ioc.
  apply tame_bind; [apply tame_process_search | intros result_set].
  apply tame_bind; [apply tame_log | intros _].
  apply tame_bind; [apply tame_log | intros _; apply tame_write_rows].
Qed.

Lemma tame_survey_program cb args query_base source item :
  tame (survey_program cb args query_base source item).
Proof.
  destruct item as [program criteria]. unfold survey_program.
  apply tame_bind; [apply tame_log | intros _].
  apply tame_bind; [apply tame_nested_loop | intros result_set].
  apply tame_bind; [apply tame_log | intros _; apply tame_write_rows].
Qed.

Lemma tame_survey_definition_file w cb args query_base definition_file :
  tame (survey_definition_file w cb args query_base definition_file).
Proof.
  unfold survey_definition_file.
  apply tame_bind; [apply tame_log | intros _].
  destruct (file_text w definition_file) as [text|]; [|apply tame_raise].
  destruct (json_load w text) as [programs|]; [|apply tame_raise].
  apply tame_for_each. intros item. apply tame_survey_program.
Qed.

Lemma tame_survey w args query_base definition_files :
  tame (survey w args query_base definition_files).
Proof.
  unfold survey.
  destruct (Py.truthy_opt (arg_query args)); [apply tame_survey_query|].
  destruct (Py.truthy_opt (arg_iocfile args)).
  - unfold survey_iocfile.
    destruct (file_text w _) as [text|]; [|apply tame_raise].
    apply tame_bind; [apply tame_log | intros _].
    apply tame_for_each. intros ioc. apply tame_survey_ioc.
  - apply tame_for_each. intros f. apply tame_survey_definition_file.
Qed.

(** ** The preamble: validation before the output file *)

Lemma find_definition_files_cases w args :
  (∃ files, find_definition_files w args = Run [] (Return files))
  ∨ (∃ msg, find_definition_files w args = Run [Stderr msg] (SysExit 1)).
Proof.
  unfold find_definition_files.
  destruct (Py.truthy_opt (arg_deffile args)).
  - destruct (path_exists w _); simpl; [left|right]; by eexists.
  - destruct (Py.truthy_opt (arg_defdir args)); [|left; by eexists].
    destruct (path_exists w _); simpl; [left|right]; by eexists.
Qed.

(** The preamble as a cascade of its four checks. *)
Lemma preamble_eq w args :
  preamble w args =
    if bool_decide (arg_iocfile args ≠ None) && bool_decide (arg_ioctype args = None)
    then parser_error "--iocfile requires --ioctype"
    else if Py.truthy_opt (arg_hostname args) && in_query (host_key args) args
    then parser_error ("Cannot use --hostname with " +:+ dquote +:+ host_key args
                       +:+ ":" +:+ dquote +:+ " (in query)")
    else if Py.truthy_opt (arg_username args) && in_query (user_key args) args
    then parser_error ("Cannot use --username with " +:+ dquote +:+ user_key args
                       +:+ ":" +:+ dquote +:+ " (in query)")
    else definition_files ← find_definition_files w args;
         mret (base_fragment w args, definition_files).
Proof.
  unfold preamble, base_fragment.
  destruct (bool_decide (arg_iocfile args ≠ None)
            && bool_decide (arg_ioctype args = None)); [reflexivity|].
  rewrite bind_mret, hostname_filter_eq.
  destruct (Py.truthy_opt (arg_hostname args) && in_query (host_key args) args);
    [reflexivity|].
  rewrite bind_mret, username_filter_eq.
  destruct (Py.truthy_opt (arg_username args) && in_query (user_key args) args);
    [reflexivity|].
  by rewrite bind_mret.
Qed.

(** The preamble either passes silently with the base fragment, or reports
    one error and exits with status 1 or 2. *)
Lemma preamble_cases w args :
  (∃ files, preamble w args = Run [] (Return (base_fragment w args, files)))
  ∨ (∃ msg, preamble w args = Run [ParserError msg] (SysExit 2))
  ∨ (∃ msg, preamble w args = Run [Stderr msg] (SysExit 1)).
Proof.
  rewrite preamble_eq.
  destruct (_ && _); [right; left; by eexists|].
  destruct (_ && _); [right; left; by eexists|].
  destruct (_ && _); [right; left; by eexists|].
  destruct (find_definition_files_cases w args) as [[files ->]|[msg ->]].
  - left. by exists files.
  - right; right. by exists msg.
Qed.

(** A run of [main_body] that passes the preamble. *)
Lemma main_body_pass w args files :
  preamble w args = Run [] (Return (base_fragment w args, files)) →
  main_body w args =
    Run (OpenOutput (output_filename args) :: WriteRow header
         :: trace (survey w args (base_fragment w args) files)
         ++ match result (survey w args (base_fragment w args) files) with
            | Return _ =>
                [CloseOutput;
                 Stdout ((newline +:+ "Results saved: " +:+ output_filename args)
                         +:+ newline)]
            | _ => []
            end)
        (match result (survey w args (base_fragment w args) files) with
         | Return _ => Return ()
         | SysExit c => SysExit c
         | Raise e => Raise e
         end).
Proof.
  intros Hpre. rewrite main_body_stages, Hpre, bind_pure, !bind_emit. simpl.
  unfold mbind, M_bind.
  destruct (result (survey w args (base_fragment w args) files)); simpl.
  - reflexivity.
  - by rewrite app_nil_r.
  - by rewrite app_nil_r.
Qed.

(** A run of [main_body] that the preamble stops. *)
Lemma main_body_stop w args t c :
  preamble w args = Run t (SysExit c) →
  main_body w args = Run t (SysExit c).
Proof. intros Hpre. by rewrite main_body_stages, Hpre. Qed.

(** ** [parse_args] *)

Lemma sources_store_other a o :
  group_flag o = None → sources (store a o) = sources a.
Proof. destruct a, o; simpl; done. Qed.

Lemma sources_store_first a o f :
  group_flag o = Some f → sources a = [] → sources (store a o) = [f].
Proof.
  destruct a as [? ? ? ? ? ? [?|] [?|] [?|] [?|] ? ? ?], o; simpl;
    intros Hf Hs; try discriminate; by inversion Hf.
Qed.

Lemma sources_store_again a o f :
  group_flag o = Some f → sources a = [f] → sources (store a o) = [f].
Proof.
  destruct a as [? ? ? ? ? ? [?|] [?|] [?|] [?|] ? ? ?], o; simpl;
    intros Hf Hs; try discriminate; inversion Hf; subst; try done;
    by inversion Hs.
Qed.

(** A namespace that [parse_args] returns names exactly one criteria source,
    and parsing performed no event. *)
Lemma parse_loop_returns argv seen a args :
  sources a = option_list seen →
  result (parse_loop argv seen a) = Return args →
  parse_loop argv seen a = Run [] (Return args) ∧ ∃ f, sources args = [f].
Proof.
  revert seen a. induction argv as [|o rest IH]; intros seen a Hinv Hres.
  - destruct seen as [g|]; simpl in *; [|discriminate].
    inversion Hres; subst. split; [done | by exists g].
  - simpl in *. destruct (group_flag o) as [f|] eqn:Hf.
    + destruct seen as [g|]; simpl in Hinv.
      * destruct (String.eqb f g) eqn:Hfg; [|discriminate].
        apply String.eqb_eq in Hfg as ->.
        apply IH; [|done]. by apply sources_store_again.
      * apply IH; [|done]. by apply sources_store_first.
    + apply IH; [|done]. by rewrite sources_store_other.
Qed.

Lemma parse_args_returns argv args :
  result (parse_args argv) = Return args →
  parse_args argv = Run [] (Return args) ∧ ∃ f, sources args = [f].
Proof. by apply parse_loop_returns. Qed.

Lemma main_parsed w argv args :
  result (parse_args argv) = Return args → main w argv = main_body w args.
Proof.
  intros H. apply parse_args_returns in H as [H _].
  unfold main. by rewrite H, bind_pure.
Qed.

(** The stored day and minute counts are those of the last occurrences. *)
Lemma parse_loop_days argv seen a args :
  result (parse_loop argv seen a) = Return args →
  arg_days args = from_option Some (arg_days a) (last_days argv)
  ∧ arg_minutes args = from_option Some (arg_minutes a) (last_minutes argv).
Proof.
  revert seen a. induction argv as [|o rest IH]; intros seen a Hres.
  - destruct seen; simpl in *; [|discriminate]. by inversion Hres.
  - simpl in Hres.
    assert (∃ seen', result (parse_loop rest seen' (store a o)) = Return args)
      as [seen' Hrest].
    { destruct (group_flag o) as [f|]; [destruct seen as [g|]|]; eauto.
      destruct (String.eqb f g); [eauto | discriminate]. }
    apply IH in Hrest as [Hd Hm]. rewrite Hd, Hm. simpl.
    destruct (last_days rest), (last_minutes rest), a, o; done.
Qed.



Lemma exclusive_deffile args f p :
  sources args = [f] → arg_deffile args = Some p →
  arg_defdir args = None ∧ arg_query args = None ∧ arg_iocfile args = None.
Proof.
  destruct args as [? ? ? ? ? ? [?|] [?|] [?|] [?|] ? ? ?]; simpl; done.
Qed.

Lemma exclusive_iocfile args f p :
  sources args = [f] → arg_iocfile args = Some p →
  arg_deffile args = None ∧ arg_defdir args = None ∧ arg_query args = None.
Proof.
  destruct args as [? ? ? ? ? ? [?|] [?|] [?|] [?|] ? ? ?]; simpl; done.
Qed.

(** ** C6: validation errors end the run before the output file *)





(** ** C9: the output file handle *)

Lemma count_app p t1 t2 : count p (t1 ++ t2) = (count p t1 + count p t2)%nat.
Proof. induction t1 as [|e t1 IH]; simpl; [done | rewrite IH; lia]. Qed.

Lemma survey_events_no_handle t :
  Forall (λ e, is_survey_event e = true) t → opens t = 0%nat ∧ closes t = 0%nat.
Proof.
  unfold opens, closes. induction 1 as [|e t He _ [IH1 IH2]]; [done|].
  simpl. rewrite IH1, IH2. by destruct e.
Qed.

Lemma parse_loop_cases argv seen a :
  (∃ args, parse_loop argv seen a = Run [] (Return args))
  ∨ (∃ msg, parse_loop argv seen a = Run [ParserError msg] (SysExit 2)).
Proof.
  revert seen a. induction argv as [|o rest IH]; intros seen a; simpl.
  - destruct seen; [left | right]; by eexists.
  - destruct (group_flag o) as [f|]; [destruct seen as [g|]|]; try apply IH.
    destruct (String.eqb f g); [apply IH | right; by eexists].
Qed.

(** The shape of every run of [main]: a run that exits performed one error
    report and never opened the file; every other run opened the file first
    and once; the file is closed, once and at the end, exactly in the runs
    that complete. *)
Lemma main_run_shape w argv :
  match result (main w argv) with
  | Return _ =>
      ∃ name body msg,
        trace (main w argv) = OpenOutput name :: body ++ [CloseOutput; Stdout msg]
        ∧ opens body = 0%nat ∧ closes body = 0%nat
  | SysExit c =>
      c ≠ 0 ∧ opens (trace (main w argv)) = 0%nat
      ∧ closes (trace (main w argv)) = 0%nat
  | Raise e =>
      ∃ name body,
        trace (main w argv) = OpenOutput name :: body
        ∧ opens body = 0%nat ∧ closes body = 0%nat
  end.
Proof.
  unfold main, parse_args.
  destruct (parse_loop_cases argv None default_args) as [[args ->]|[msg ->]];
    [|done].
  rewrite bind_pure.
  destruct (preamble_cases w args) as [[files Hpre]|[[msg Hpre]|[msg Hpre]]].
  - rewrite (main_body_pass w args files Hpre).
    destruct (tame_survey w args (base_fragment w args) files) as [Hev Hexit].
    apply survey_events_no_handle in Hev as [Ho Hc].
    destruct (result (survey w args (base_fragment w args) files))
      as [[]|c|e] eqn:Hres; simpl.
    + eexists _, (WriteRow header :: trace (survey w args _ files)), _.
      split; [reflexivity|]. by split.
    + by destruct (Hexit c).
    + eexists _, (WriteRow header :: trace (survey w args _ files)).
      rewrite app_nil_r. split; [reflexivity|]. by split.
  - by rewrite (main_body_stop w args _ _ Hpre).
  - by rewrite (main_body_stop w args _ _ Hpre).
Qed.

(** C9, as the code has it.  The output file is opened at most once, after
    validation: a run that exits on a validation error never opens it.  It is
    closed exactly once, as the last action on the file, in the runs that
    complete.  A run that an uncaught exception ends has opened the file and
    does not close it. *)
Theorem C9_output_closed_on_completion_only (w : World) (argv : list cli_opt) :
  (opens (trace (main w argv)) ≤ 1)%nat
  ∧ closes (trace (main w argv))
    = (if result (main w argv) is Return _ then 1 else 0)%nat
  ∧ opens (trace (main w argv))
    = (if result (main w argv) is SysExit _ then 0 else 1)%nat
  ∧ match result (main w argv) with
    | Return _ =>
        ∃ name body msg,
          trace (main w argv)
          = OpenOutput name :: body ++ [CloseOutput; Stdout msg]
          ∧ opens body = 0%nat ∧ closes body = 0%nat
    | SysExit c => c ≠ 0
    | Raise e =>
        ∃ name body,
          trace (main w argv) = OpenOutput name :: body
          ∧ opens body = 0%nat ∧ closes body = 0%nat
    end.
Proof.
  pose proof (main_run_shape w argv) as Hshape.
  destruct (result (main w argv)) as [[]|c|e].
  - destruct Hshape as (name & body & msg & Ht & Ho & Hc).
    rewrite Ht. unfold opens, closes in *. simpl.
    rewrite !count_app, Ho, Hc. simpl.
    split; [lia|]. split; [lia|]. split; [lia|].
    exists name, body, msg. by rewrite Ho, Hc.
  - destruct Hshape as (Hne & Ho & Hc). rewrite Ho, Hc.
    split; [lia|]. by split.
  - destruct Hshape as (name & body & Ht & Ho & Hc).
    rewrite Ht. unfold opens, closes in *. simpl. rewrite Ho, Hc.
    split; [lia|]. split; [lia|]. split; [lia|].
    exists name, body. by rewrite Ho, Hc.
Qed.

(** C9, counterexample.  [--query q] against an on-premises backend that
    raises while the records are fetched: the exception leaves [main] after
    the output file was opened, and the file is not closed. *)
Lemma C9_counterexample_backend_exception :
  main Sample.broken_world [opt_query "q"]
  = Run [OpenOutput "survey.csv"; WriteRow header; Stdout "Processing query";
         Select "q"]
        (Raise (OtherError "ApiError"))
  ∧ opens (trace (main Sample.broken_world [opt_query "q"])) = 1%nat
  ∧ closes (trace (main Sample.broken_world [opt_query "q"])) = 0%nat.
Proof. vm_compute. done. Qed.

(** ** C3: the time window when both flags are given *)

Lemma time_window_eq w args :
  time_window w args =
    if Py.truthy_int (arg_days args) then
      if arg_cbc args then cloud_window w (default 0 (arg_days args) * 1440)
      else response_window (default 0 (arg_days args) * 1440)
    else if Py.truthy_int (arg_minutes args) then
      if arg_cbc args then cloud_window w (default 0 (arg_minutes args))
      else response_window (default 0 (arg_minutes args))
    else "".
Proof.
  unfold time_window.
  by destruct (arg_cbc args), (Py.truthy_int (arg_days args)),
       (Py.truthy_int (arg_minutes args)).
Qed.

(** C3, as the code has it.  When both [--days] and [--minutes] are given,
    the namespace holds the value of the last occurrence of each, and the time
    window is the one of [--days] whenever its value is not 0, wherever the
    two flags stand on the command line; the value of [--minutes] is used only
    when the day count is 0, and no clause is added when both are 0.  This is
    so in both dialects. *)
Theorem C3_days_take_precedence
    (w : World) (argv : list cli_opt) (args : Args) (d m : Z)
    (Hparse : result (parse_args argv) = Return args)
    (Hd : last_days argv = Some d)
    (Hm : last_minutes argv = Some m) :
  arg_days args = Some d
  ∧ arg_minutes args = Some m
  ∧ time_window w args =
      if negb (d =? 0) then
        if arg_cbc args then cloud_window w (d * 1440)
        else response_window (d * 1440)
      else if negb (m =? 0) then
        if arg_cbc args then cloud_window w m else response_window m
      else "".
Proof.
  destruct (parse_loop_days argv None default_args args Hparse) as [Hdays Hmins].
  rewrite Hd in Hdays. rewrite Hm in Hmins. simpl in Hdays, Hmins.
  split; [done|]. split; [done|].
  rewrite time_window_eq, Hdays, Hmins. reflexivity.
Qed.

(** [--query q --minutes 5 --days 1]: the days win although given first or
    last. *)
Lemma C3_witness_days_before_minutes :
  arg_days (store (store (store default_args (opt_query "q")) (opt_days 1))
                  (opt_minutes 5)) = Some 1
  ∧ arg_minutes (store (store (store default_args (opt_query "q")) (opt_days 1))
                       (opt_minutes 5)) = Some 5
  ∧ time_window Sample.empty_world
      (store (store (store default_args (opt_query "q")) (opt_days 1))
             (opt_minutes 5))
    = " start:-1440m".
Proof.
  apply (C3_days_take_precedence Sample.empty_world
           [opt_query "q"; opt_days 1; opt_minutes 5]
           (store (store (store default_args (opt_query "q")) (opt_days 1))
                  (opt_minutes 5)) 1 5);
    reflexivity.
Defined.

(** C3, counterexample.  On [--query q --days 1 --minutes 5] the flag given
    last is [--minutes 5], and the time window is the one of [--days 1]: 1440
    minutes, not 5, in the on-premises dialect and, with [--cbc], in the cloud
    dialect. *)
Lemma C3_counterexample_minutes_given_last :
  last_time_flag [opt_query "q"; opt_days 1; opt_minutes 5]
  = Some (opt_minutes 5)
  ∧ (∃ args,
       parse_args [opt_query "q"; opt_days 1; opt_minutes 5]
       = Run [] (Return args)
       ∧ time_window Sample.empty_world args = response_window 1440
       ∧ time_window Sample.empty_world args ≠ response_window 5)
  ∧ last_time_flag [opt_cbc; opt_query "q"; opt_days 1; opt_minutes 5]
    = Some (opt_minutes 5)
  ∧ (∃ args,
       parse_args [opt_cbc; opt_query "q"; opt_days 1; opt_minutes 5]
       = Run [] (Return args)
       ∧ time_window Sample.empty_world args
         = cloud_window Sample.empty_world 1440
       ∧ time_window Sample.empty_world args
         ≠ cloud_window Sample.empty_world 5).
Proof.
  split; [reflexivity|]. split.
  - eexists. split; [reflexivity|]. split; [reflexivity|].
    vm_compute. discriminate.
  - split; [reflexivity|].
    eexists. split; [reflexivity|]. split; [reflexivity|].
    vm_compute. discriminate.
Qed.

(** ** C10: the conflict checks of [--hostname] and [--username] *)








(** ** Searches that return, and the loops around them *)

Lemma rows_app t1 t2 : rows (t1 ++ t2) = (rows t1 ++ rows t2)%list.
Proof. unfold rows. apply omap_app. Qed.

Lemma for_each_cons {A} (x : A) (l : list A) (body : A → M unit) :
  for_each (x :: l) body = (body x ;; for_each l body).
Proof. reflexivity. Qed.

Lemma for_each_emit {A} (l : list A) (f : A → event) :
  for_each l (λ x, emit (f x)) = Run (f <$> l) (Return ()).
Proof.
  induction l as [|x l IH]; [done|].
  by rewrite for_each_cons, bind_emit, IH.
Qed.

Lemma write_rows_run result_set program source :
  write_rows result_set program source
  = Run ((λ r, WriteRow (make_row r program source)) <$> elements result_set)
        (Return ()).
Proof. unfold write_rows. apply for_each_emit. Qed.

Lemma for_each_cons_return {A} (x : A) (l : list A) (body : A → M unit) :
  result (body x) = Return () →
  for_each (x :: l) body
  = Run (trace (body x) ++ trace (for_each l body)) (result (for_each l body)).
Proof. intros H. by rewrite for_each_cons, (bind_return _ _ () H). Qed.

Lemma for_each_all_return {A} (l : list A) (body : A → M unit) :
  Forall (λ x, returns (body x)) l →
  for_each l body = Run (concat ((λ x, trace (body x)) <$> l)) (Return ()).
Proof.
  induction 1 as [|x l [[] Hx] _ IH]; [done|].
  rewrite (for_each_cons_return _ _ _ Hx), IH. reflexivity.
Qed.

(** The general form of a search: the conversion event, if any; then either
    nothing was sent, or the query with the base fragment appended was sent
    and [finish] ends the search on the rows the backend yielded. *)
Lemma process_search_sent cb query query_base translate query' :
  to_send cb query translate = Some query' →
  process_search cb query query_base translate
  = Run (conversion cb query translate
         ++ Select (query' +:+ query_base)
         :: trace (finish (list_to_set (records (answer cb (query' +:+ query_base))))
                          (ending (answer cb (query' +:+ query_base)))))
        (result (finish (list_to_set (records (answer cb (query' +:+ query_base))))
                        (ending (answer cb (query' +:+ query_base))))).
Proof.
  assert (Hrun : ∀ A (sel : string → stream A) (row : A → Result) q,
    run_query sel row q query_base
    = Run (Select (q +:+ query_base)
           :: trace (finish (list_to_set (row <$> records (sel (q +:+ query_base))))
                            (ending (sel (q +:+ query_base)))))
          (result (finish (list_to_set (row <$> records (sel (q +:+ query_base))))
                          (ending (sel (q +:+ query_base)))))).
  { intros A sel row q. unfold run_query. rewrite bind_emit, collect_spec.
    by rewrite (left_id_L ∅ (∪)). }
  intros Hsend.
  destruct cb as [sel|conv sel];
    unfold process_search, to_send, conversion, answer in *.
  - inversion Hsend; subst. apply Hrun.
  - destruct translate.
    + rewrite bind_emit. destruct (conv query) as [e|q]; [done|].
      inversion Hsend; subst. by rewrite Hrun.
    + inversion Hsend; subst. apply Hrun.
Qed.

(** A search returns or raises. *)
Lemma process_search_cases cb query query_base translate :
  (∃ found, result (process_search cb query query_base translate) = Return found)
  ∨ (∃ e, result (process_search cb query query_base translate) = Raise e).
Proof.
  destruct (tame_process_search cb query query_base translate) as [_ Hexit].
  destruct (result _) as [found|c|e]; [left|by destruct (Hexit c)|right];
    by eexists.
Qed.

Lemma survey_ioc_run cb args query_base ioc found :
  result (process_search cb
            (default "None" (arg_ioctype args) +:+ ":" +:+ Py.strip ioc)
            query_base (arg_translate args)) = Return found →
  survey_ioc cb args query_base ioc
  = Run (trace (process_search cb
                  (default "None" (arg_ioctype args) +:+ ":" +:+ Py.strip ioc)
                  query_base (arg_translate args))
         ++ ioc_report found (Py.strip ioc))
        (Return ()).
Proof.
  intros Hres. unfold survey_ioc, ioc_report.
  rewrite (bind_return _ _ found Hres). unfold log at 1. rewrite bind_emit.
  rewrite write_rows_run. unfold log_count, log. rewrite bind_emit.
  by rewrite string_app_nil_r.
Qed.

Lemma survey_query_run cb args query_base found :
  result (process_search cb (default "" (arg_query args)) query_base
            (arg_translate args)) = Return found →
  survey_query cb args query_base
  = Run (Stdout "Processing query"
         :: trace (process_search cb (default "" (arg_query args)) query_base
                     (arg_translate args))
         ++ trace (log_count found)
         ++ ((λ r, WriteRow (make_row r (default "" (arg_query args)) "query"))
               <$> elements found))
        (Return ()).
Proof.
  intros Hres. unfold survey_query. unfold log at 1. rewrite bind_emit.
  rewrite (bind_return _ _ found Hres).
  rewrite write_rows_run. unfold log_count, log. rewrite bind_emit. reflexivity.
Qed.

Lemma rows_search cb query query_base translate :
  rows (trace (process_search cb query query_base translate)) = [].
Proof.
  destruct cb as [sel|conv sel]; unfold process_search;
    [|destruct translate; [destruct (conv query) as [[| |what]|query']|]];
    cbn; try destruct (ending (sel _)) as [[| |what']|]; reflexivity.
Qed.

Lemma rows_cons_row r t : rows (WriteRow r :: t) = r :: rows t.
Proof. reflexivity. Qed.

Lemma rows_write l (f : Result → list string) :
  rows ((λ r, WriteRow (f r)) <$> l) = f <$> l.
Proof.
  induction l as [|r l IH]; [done|].
  by rewrite !fmap_cons, rows_cons_row, IH.
Qed.

Lemma finish_interrupted results :
  finish results (Some KeyboardInterrupt)
  = Run [Stdout caught_ctrl_c] (Return results).
Proof. reflexivity. Qed.

Lemma nested_loop_cons_return cb search_field terms rest query_base translate
    results found :
  result (process_search cb (field_query search_field terms) query_base translate)
  = Return found →
  nested_loop cb ((search_field, terms) :: rest) query_base translate results
  = Run (trace (process_search cb (field_query search_field terms) query_base
                  translate)
         ++ trace (nested_loop cb rest query_base translate (results ∪ found)))
        (result (nested_loop cb rest query_base translate (results ∪ found))).
Proof.
  intros Hres.
  change (nested_loop cb ((search_field, terms) :: rest) query_base translate
            results)
    with (process_search cb (field_query search_field terms) query_base translate
          ≫= λ found, nested_loop cb rest query_base translate (results ∪ found)).
  by rewrite (bind_return _ _ found Hres).
Qed.

Lemma rows_log_count found : rows (trace (log_count found)) = [].
Proof. reflexivity. Qed.

(** A run on a raw query whose search returns. *)
Lemma main_body_query w args files q found :
  preamble w args = Run [] (Return (base_fragment w args, files)) →
  arg_query args = Some q → Py.truthy q = true →
  result (process_search (connect w args) q (base_fragment w args)
            (arg_translate args)) = Return found →
  main_body w args
  = Run (OpenOutput (output_filename args) :: WriteRow header
         :: (Stdout "Processing query"
             :: trace (process_search (connect w args) q (base_fragment w args)
                         (arg_translate args))
             ++ trace (log_count found)
             ++ ((λ r, WriteRow (make_row r q "query")) <$> elements found))
         ++ [CloseOutput; Stdout (results_saved args)])
        (Return ()).
Proof.
  intros Hpre Hq Htq Hres. rewrite (main_body_pass w args files Hpre).
  assert (survey w args (base_fragment w args) files
          = survey_query (connect w args) args (base_fragment w args)) as ->.
  { unfold survey. rewrite Hq. simpl. by rewrite Htq. }
  pose proof (survey_query_run (connect w args) args (base_fragment w args) found)
    as Hrun.
  rewrite Hq in Hrun. simpl in Hrun. rewrite (Hrun Hres). reflexivity.
Qed.

Lemma main_body_query_rows w args files q found :
  preamble w args = Run [] (Return (base_fragment w args, files)) →
  arg_query args = Some q → Py.truthy q = true →
  result (process_search (connect w args) q (base_fragment w args)
            (arg_translate args)) = Return found →
  result (main_body w args) = Return ()
  ∧ rows (trace (main_body w args))
    = header :: ((λ r, make_row r q "query") <$> elements found)
  ∧ opens (trace (main_body w args)) = 1%nat
  ∧ closes (trace (main_body w args)) = 1%nat.
Proof.
  intros Hpre Hq Htq Hres.
  rewrite (main_body_query w args files q found Hpre Hq Htq Hres).
  cbn [trace result]. split; [done|]. split.
  - change (rows (OpenOutput ?n :: ?t)) with (rows t).
    rewrite rows_cons_row. f_equal.
    rewrite rows_app.
    change (rows (Stdout ?s :: ?t)) with (rows t).
    rewrite !rows_app, rows_search, rows_log_count, rows_write.
    cbn. by rewrite app_nil_r.
  - destruct (tame_process_search (connect w args) q (base_fragment w args)
                (arg_translate args)) as [Hev _].
    apply survey_events_no_handle in Hev as [Ho Hc].
    assert (Hrows : ∀ l : list Result,
              opens ((λ r, WriteRow (make_row r q "query")) <$> l) = 0%nat
              ∧ closes ((λ r, WriteRow (make_row r q "query")) <$> l) = 0%nat).
    { intros l. apply survey_events_no_handle.
      apply Forall_fmap, Forall_forall. by intros. }
    destruct (Hrows (elements found)) as [Hro Hrc].
    unfold opens, closes in *.
    change (OpenOutput ?a :: WriteRow ?b :: (Stdout ?c :: ?t1) ++ ?t2)%list
      with ([OpenOutput a; WriteRow b; Stdout c] ++ t1 ++ t2)%list.
    rewrite !count_app, Ho, Hc, Hro, Hrc. by cbn.
Qed.

(** ** C5: an interrupt during the iteration *)

(** C5. When the operator's interrupt arrives while [process_search] iterates
    over the records of a query, the search stops, logs the interrupt and
    returns the rows collected so far; nothing is raised.  The loops around it
    go on: the remaining fields of a group and the remaining indicators of a
    file are searched, the partial rows are reported and written, and a run on
    a single query writes the partial rows, closes the file and ends with exit
    status 0. *)
Theorem C5_interrupt_returns_partial_results
    (cb : cb_conn) (query query' query_base : string) (translate : bool)
    (Hsend : to_send cb query translate = Some query')
    (Hint : ending (answer cb (query' +:+ query_base)) = Some KeyboardInterrupt) :
  let partial : gset Result :=
    list_to_set (records (answer cb (query' +:+ query_base))) in
  process_search cb query query_base translate
  = Run (conversion cb query translate
         ++ [Select (query' +:+ query_base); Stdout caught_ctrl_c])
        (Return partial)
  ∧ (∀ search_field terms rest results,
       field_query search_field terms = query →
       nested_loop cb ((search_field, terms) :: rest) query_base translate results
       = Run (trace (process_search cb query query_base translate)
              ++ trace (nested_loop cb rest query_base translate
                          (results ∪ partial)))
             (result (nested_loop cb rest query_base translate
                        (results ∪ partial))))
  ∧ (∀ args ioc rest,
       arg_translate args = translate →
       default "None" (arg_ioctype args) +:+ ":" +:+ Py.strip ioc = query →
       for_each (ioc :: rest) (survey_ioc cb args query_base)
       = Run ((trace (process_search cb query query_base translate)
               ++ ioc_report partial (Py.strip ioc))
              ++ trace (for_each rest (survey_ioc cb args query_base)))
             (result (for_each rest (survey_ioc cb args query_base))))
  ∧ (∀ w args files,
       preamble w args = Run [] (Return (base_fragment w args, files)) →
       connect w args = cb → base_fragment w args = query_base →
       arg_translate args = translate →
       arg_query args = Some query → Py.truthy query = true →
       result (main_body w args) = Return ()
       ∧ exit_status (result (main_body w args)) = 0
       ∧ rows (trace (main_body w args))
         = header :: ((λ r, make_row r query "query") <$> elements partial)
       ∧ opens (trace (main_body w args)) = 1%nat
       ∧ closes (trace (main_body w args)) = 1%nat).
Proof.
  intros partial.
  assert (Hrun : process_search cb query query_base translate
                 = Run (conversion cb query translate
                        ++ [Select (query' +:+ query_base); Stdout caught_ctrl_c])
                       (Return partial)).
  { rewrite (process_search_sent cb query query_base translate query' Hsend).
    rewrite Hint, finish_interrupted. reflexivity. }
  assert (Hres : result (process_search cb query query_base translate)
                 = Return partial) by (by rewrite Hrun).
  split; [exact Hrun|]. split; [|split].
  - intros search_field terms rest results Hfield. subst query.
    by apply nested_loop_cons_return.
  - intros args ioc rest Htr Hquery. subst translate query.
    pose proof (survey_ioc_run cb args query_base ioc partial Hres) as Hioc.
    rewrite for_each_cons_return; rewrite Hioc; reflexivity.
  - intros w args files Hpre Hcb Hqb Htr Hq Htq. subst cb query_base translate.
    destruct (main_body_query_rows w args files query partial Hpre Hq Htq Hres)
      as (Hr & Hrows & Ho & Hc).
    rewrite Hr. by repeat split.
Qed.

(** A search on the on-premises backend interrupted after one record. *)
Lemma C5_witness_one_record :
  process_search SampleInterrupt.backend "q" " start:-5m" false
  = Run [Select "q start:-5m"; Stdout caught_ctrl_c]
        (Return (list_to_set [r_row Sample.pc2])).
Proof.
  destruct (C5_interrupt_returns_partial_results SampleInterrupt.backend
              "q" "q" " start:-5m" false eq_refl eq_refl) as [Hrun _].
  exact Hrun.
Defined.

(** ** C4: dialect translation *)

(** C4. On the cloud backend with translation, [process_search] converts the
    query it was given and appends the base fragment to the converted query.
    When the conversion fails with a server error the search logs the failure
    and returns the empty set without sending anything; the loops around it go
    on with the next field or indicator, and a run on a single query
    completes with the header as its only row. *)
Theorem C4_translation_failure_skips_the_query
    (convert_query : string → exn + string)
    (select_where : string → stream th_Process)
    (query_ok query' query_bad query_base : string)
    (Hok : convert_query query_ok = inr query')
    (Hbad : convert_query query_bad = inl ServerError) :
  let cb := CbThreatHunterAPI convert_query select_where in
  process_search cb query_ok query_base true
  = Run (ConvertQuery query_ok :: Select (query' +:+ query_base)
         :: trace (finish (list_to_set (records (answer cb (query' +:+ query_base))))
                          (ending (answer cb (query' +:+ query_base)))))
        (result (finish (list_to_set (records (answer cb (query' +:+ query_base))))
                        (ending (answer cb (query' +:+ query_base)))))
  ∧ selects (trace (process_search cb query_ok query_base true))
    = [query' +:+ query_base]
  ∧ process_search cb query_bad query_base true
    = Run [ConvertQuery query_bad; Stdout (cannot_convert query_bad)] (Return ∅)
  ∧ (∀ search_field terms rest results,
       field_query search_field terms = query_bad →
       nested_loop cb ((search_field, terms) :: rest) query_base true results
       = Run ([ConvertQuery query_bad; Stdout (cannot_convert query_bad)]
              ++ trace (nested_loop cb rest query_base true results))
             (result (nested_loop cb rest query_base true results)))
  ∧ (∀ args ioc rest,
       arg_translate args = true →
       default "None" (arg_ioctype args) +:+ ":" +:+ Py.strip ioc = query_bad →
       for_each (ioc :: rest) (survey_ioc cb args query_base)
       = Run (([ConvertQuery query_bad; Stdout (cannot_convert query_bad)]
               ++ ioc_report ∅ (Py.strip ioc))
              ++ trace (for_each rest (survey_ioc cb args query_base)))
             (result (for_each rest (survey_ioc cb args query_base))))
  ∧ (∀ w args files,
       preamble w args = Run [] (Return (base_fragment w args, files)) →
       connect w args = cb → base_fragment w args = query_base →
       arg_translate args = true →
       arg_query args = Some query_bad → Py.truthy query_bad = true →
       result (main_body w args) = Return ()
       ∧ exit_status (result (main_body w args)) = 0
       ∧ rows (trace (main_body w args)) = [header]
       ∧ closes (trace (main_body w args)) = 1%nat).
Proof.
  intros cb.
  assert (Hrun : process_search cb query_bad query_base true
                 = Run [ConvertQuery query_bad; Stdout (cannot_convert query_bad)]
                       (Return ∅)).
  { unfold cb, process_search. rewrite bind_emit, Hbad. reflexivity. }
  assert (Hres : result (process_search cb query_bad query_base true) = Return ∅)
    by (by rewrite Hrun).
  assert (Hsent : process_search cb query_ok query_base true
                  = Run (ConvertQuery query_ok :: Select (query' +:+ query_base)
                         :: trace (finish (list_to_set (records (answer cb (query' +:+ query_base))))
                                          (ending (answer cb (query' +:+ query_base)))))
                        (result (finish (list_to_set (records (answer cb (query' +:+ query_base))))
                                        (ending (answer cb (query' +:+ query_base)))))).
  { apply (process_search_sent cb query_ok query_base true query').
    unfold cb, to_send. by rewrite Hok. }
  split; [exact Hsent|]. split; [|split; [exact Hrun|split; [|split]]].
  - rewrite Hsent. cbn [trace].
    destruct (ending (answer cb (query' +:+ query_base))) as [[| |what]|];
      reflexivity.
  - intros search_field terms rest results Hfield. subst query_bad.
    rewrite (nested_loop_cons_return _ _ _ _ _ _ _ ∅ Hres), Hrun.
    by rewrite (right_id_L ∅ (∪)).
  - intros args ioc rest Htr Hquery.
    pose proof (survey_ioc_run cb args query_base ioc ∅) as Hioc.
    rewrite Htr, Hquery in Hioc. specialize (Hioc Hres).
    rewrite for_each_cons_return; rewrite Hioc, Hrun; reflexivity.
  - intros w args files Hpre Hcb Hqb Htr Hq Htq.
    rewrite <- Hcb, <- Hqb, <- Htr in Hres.
    destruct (main_body_query_rows w args files query_bad ∅ Hpre Hq Htq Hres)
      as (Hr & Hrows & Ho & Hc).
    rewrite Hr, Hrows, elements_empty. by repeat split.
Qed.

(** A conversion that succeeds and one that fails on the sample cloud backend. *)
Lemma C4_witness_convert_or_skip :
  selects (trace (process_search SampleCloud.backend "ok" " device_name:h" true))
  = ["OK device_name:h"]
  ∧ process_search SampleCloud.backend "md5:x" " device_name:h" true
    = Run [ConvertQuery "md5:x"; Stdout (cannot_convert "md5:x")] (Return ∅).
Proof.
  destruct (C4_translation_failure_skips_the_query
              SampleCloud.convert_query SampleCloud.select_where
              "ok" "OK" "md5:x" " device_name:h" eq_refl eq_refl)
    as (_ & Hsel & Hbad & _).
  split; [exact Hsel | exact Hbad].
Defined.

(** ** C2: result sets *)

Lemma same_letter_lower a b :
  same_letter a b = true → Py.lower_ascii a = Py.lower_ascii b.
Proof.
  unfold same_letter. intros H.
  apply orb_true_iff in H as [H|H]; [apply orb_true_iff in H as [H|H]|].
  - by apply Ascii.eqb_eq in H as ->.
  - apply andb_true_iff in H as [Hup H]. apply Ascii.eqb_eq in H as ->.
    revert Hup. destruct a as [[] [] [] [] [] [] [] []]; vm_compute; congruence.
  - apply andb_true_iff in H as [Hup H]. apply Ascii.eqb_eq in H as ->.
    revert Hup. destruct b as [[] [] [] [] [] [] [] []]; vm_compute; congruence.
Qed.

Lemma same_but_case_lower s t :
  same_but_case s t = true → Py.lower s = Py.lower t.
Proof.
  revert t. induction s as [|a s IH]; intros [|b t] H; try done.
  simpl in H. apply andb_true_iff in H as [Hab Hst].
  simpl. by rewrite (same_letter_lower a b Hab), (IH t Hst).
Qed.

Lemma nested_loop_results_eq cb criteria query_base translate results results' :
  results = results' →
  nested_loop cb criteria query_base translate results
  = nested_loop cb criteria query_base translate results'.
Proof. by intros ->. Qed.

Lemma lower_ascii_idemp a : Py.lower_ascii (Py.lower_ascii a) = Py.lower_ascii a.
Proof. destruct a as [[] [] [] [] [] [] [] []]; reflexivity. Qed.

Lemma lower_idemp s : Py.lower (Py.lower s) = Py.lower s.
Proof.
  induction s as [|a s IH]; [done|].
  simpl. by rewrite lower_ascii_idemp, IH.
Qed.

(** Every row a search returns was yielded by the backend. *)
Lemma returned_from_answer cb query query_base translate r :
  r ∈ returned (process_search cb query query_base translate) →
  ∃ sent, r ∈ records (answer cb sent).
Proof.
  unfold returned. intros Hr.
  destruct (to_send cb query translate) as [query'|] eqn:Hsend.
  - rewrite (process_search_sent cb query query_base translate query' Hsend)
      in Hr.
    cbn [result] in Hr. rewrite finish_result in Hr.
    exists (query' +:+ query_base).
    destruct (ending (answer cb (query' +:+ query_base))) as [[| |what]|];
      set_solver.
  - destruct cb as [sel|conv sel]; [done|].
    unfold to_send in Hsend. destruct translate; [|done].
    unfold process_search in Hr. rewrite bind_emit in Hr.
    destruct (conv query) as [[| |what]|q]; [| | |done]; cbn in Hr; set_solver.
Qed.

Lemma answer_lowercase cb sent r :
  r ∈ records (answer cb sent) →
  Py.lower r.1.1.1 = r.1.1.1 ∧ Py.lower r.1.1.2 = r.1.1.2.
Proof.
  destruct cb as [sel|conv sel]; unfold answer; cbn [records];
    intros (proc & -> & _)%list_elem_of_fmap; simpl;
    by rewrite !lower_idemp.
Qed.

Lemma lower_ascii_unfold a :
  Py.lower_ascii a
  = if is_upper a then ascii_of_N (N_of_ascii a + 32) else a.
Proof. reflexivity. Qed.

Lemma is_upper_bound a : is_upper a = true → (N_of_ascii a + 32 < 256)%N.
Proof.
  unfold is_upper. intros [_ H]%andb_true_iff. apply N.leb_le in H. lia.
Qed.

Lemma lower_same_letter a b :
  Py.lower_ascii a = Py.lower_ascii b → same_letter a b = true.
Proof.
  rewrite !lower_ascii_unfold. unfold same_letter.
  destruct (is_upper a) eqn:Ha, (is_upper b) eqn:Hb; intros H.
  - apply (f_equal N_of_ascii) in H.
    rewrite !N_ascii_embedding in H by (by apply is_upper_bound).
    assert (N_of_ascii a = N_of_ascii b) as Hab by lia.
    rewrite <- (ascii_N_embedding a), <- (ascii_N_embedding b), Hab.
    by rewrite Ascii.eqb_refl.
  - subst b. rewrite Ascii.eqb_refl. cbn [andb]. by rewrite orb_true_r.
  - subst a. rewrite Ascii.eqb_refl. cbn [andb]. by rewrite orb_true_r.
  - subst b. by rewrite Ascii.eqb_refl.
Qed.

Lemma lower_same_but_case s t :
  Py.lower s = Py.lower t → same_but_case s t = true.
Proof.
  revert t. induction s as [|a s IH]; intros [|b t] H; try done.
  cbn [Py.lower] in H. injection H as Hab Hst.
  cbn [same_but_case]. by rewrite (lower_same_letter a b Hab), (IH t Hst).
Qed.

Lemma is_upper_lower_ascii a : is_upper (Py.lower_ascii a) = false.
Proof. destruct a as [[] [] [] [] [] [] [] []]; reflexivity. Qed.

Lemma no_upper_lower s : no_upper (Py.lower s) = true.
Proof.
  induction s as [|a s IH]; [done|].
  cbn [Py.lower no_upper]. by rewrite is_upper_lower_ascii, IH.
Qed.

Lemma lower_no_upper s : no_upper s = true → Py.lower s = s.
Proof.
  induction s as [|a s IH]; [done|]. cbn [no_upper Py.lower].
  intros [Ha Hs]%andb_true_iff. apply negb_true_iff in Ha.
  by rewrite lower_ascii_unfold, Ha, (IH Hs).
Qed.

Lemma length_lower s : String.length (Py.lower s) = String.length s.
Proof. induction s as [|a s IH]; [done|]. cbn. by rewrite IH. Qed.

(** Two records of the on-premises backend give the same row exactly when
    they differ at most in the letter case of host and user name. *)
Lemma r_row_eq_iff p1 p2 :
  r_row p1 = r_row p2
  ↔ same_but_case (r_hostname p1) (r_hostname p2) = true
    ∧ same_but_case (r_username p1) (r_username p2) = true
    ∧ r_path p1 = r_path p2
    ∧ r_cmdline p1 = r_cmdline p2.
Proof.
  unfold r_row. split.
  - intros [= Hh Hu Hp Hc].
    repeat split; try done; by apply lower_same_but_case.
  - intros (Hh & Hu & -> & ->).
    by rewrite (same_but_case_lower _ _ Hh), (same_but_case_lower _ _ Hu).
Qed.

(** C2. Result sets are sets of 4-tuples compared field by field.  Merging the
    result set of a search a second time changes neither the accumulated set
    nor its size, and searching the same field twice gives the group the same
    result as searching it once.  The tuple stored for a record is (host name
    in lower case, user name in lower case, path, command line), the lower
    case of a string being the string of the same length without upper-case
    letters that differs from it in letter case only.  So two records give
    the same tuple exactly when they differ at most in the letter case of
    host and user name: a search that yields two such records returns a set
    of one element, and a search that yields two records differing otherwise
    returns a set of two.  The rows written for a result set are pairwise
    distinct. *)
Theorem C2_result_sets_deduplicate
    (select_where : string → stream r_Process)
    (query query_base : string) (translate : bool) (p1 p2 : r_Process)
    (Hhost : same_but_case (r_hostname p1) (r_hostname p2) = true)
    (Huser : same_but_case (r_username p1) (r_username p2) = true)
    (Hpath : r_path p1 = r_path p2)
    (Hcmd : r_cmdline p1 = r_cmdline p2)
    (Hsel : select_where (query +:+ query_base)
            = {| records := [p1; p2]; ending := None |}) :
  (∀ (results : gset Result) (search : M (gset Result)),
     (results ∪ returned search) ∪ returned search = results ∪ returned search
     ∧ size ((results ∪ returned search) ∪ returned search)
       = size (results ∪ returned search))
  ∧ (∀ cb item rest query_base translate results,
       result (nested_loop cb (item :: item :: rest) query_base translate results)
       = result (nested_loop cb (item :: rest) query_base translate results))
  ∧ (∀ r r' : Result,
       r = r' ↔ r.1.1.1 = r'.1.1.1 ∧ r.1.1.2 = r'.1.1.2 ∧ r.1.2 = r'.1.2 ∧ r.2 = r'.2)
  ∧ r_row p1 = r_row p2
  ∧ result (process_search (CbEnterpriseResponseAPI select_where) query
              query_base translate)
    = Return {[ r_row p1 ]}
  ∧ size (returned (process_search (CbEnterpriseResponseAPI select_where) query
                      query_base translate)) = 1%nat
  ∧ (∀ (found : gset Result) program source,
       NoDup (rows (trace (write_rows found program source))))
  ∧ (∀ cb query query_base translate r,
       r ∈ returned (process_search cb query query_base translate) →
       Py.lower r.1.1.1 = r.1.1.1 ∧ Py.lower r.1.1.2 = r.1.1.2)
  ∧ (∀ t1 t2 : th_Process,
       same_but_case (str_get t1 "device_name") (str_get t2 "device_name") = true →
       same_but_case (str_get t1 "process_username")
                     (str_get t2 "process_username") = true →
       str_get t1 "process_name" = str_get t2 "process_name" →
       str_get t1 "process_cmdline" = str_get t2 "process_cmdline" →
       th_row t1 = th_row t2)
  ∧ (∀ p : r_Process,
       r_row p
       = (Py.lower (r_hostname p), Py.lower (r_username p), r_path p,
          r_cmdline p))
  ∧ (∀ t : th_Process,
       th_row t
       = (Py.lower (default "None" (t !! "device_name")),
          Py.lower (default "None" (t !! "process_username")),
          default "None" (t !! "process_name"),
          default "None" (t !! "process_cmdline")))
  ∧ (∀ s t : string, Py.lower s = Py.lower t ↔ same_but_case s t = true)
  ∧ (∀ s : string,
       no_upper (Py.lower s) = true
       ∧ String.length (Py.lower s) = String.length s
       ∧ same_but_case s (Py.lower s) = true
       ∧ (no_upper s = true → Py.lower s = s))
  ∧ (∀ pa pb : r_Process,
       r_row pa = r_row pb
       ↔ same_but_case (r_hostname pa) (r_hostname pb) = true
         ∧ same_but_case (r_username pa) (r_username pb) = true
         ∧ r_path pa = r_path pb
         ∧ r_cmdline pa = r_cmdline pb)
  ∧ result (process_search (CbEnterpriseResponseAPI select_where) query
              query_base translate)
    = Return {[ (Py.lower (r_hostname p1), Py.lower (r_username p1),
                 r_path p1, r_cmdline p1) ]}
  ∧ (∀ (sel : string → stream r_Process) q qb tr (pa pb : r_Process),
       sel (q +:+ qb) = {| records := [pa; pb]; ending := None |} →
       ¬ (same_but_case (r_hostname pa) (r_hostname pb) = true
          ∧ same_but_case (r_username pa) (r_username pb) = true
          ∧ r_path pa = r_path pb
          ∧ r_cmdline pa = r_cmdline pb) →
       result (process_search (CbEnterpriseResponseAPI sel) q qb tr)
       = Return {[ r_row pa; r_row pb ]}
       ∧ size (returned (process_search (CbEnterpriseResponseAPI sel) q qb tr))
         = 2%nat).
Proof.
  assert (Hrow : r_row p1 = r_row p2).
  { unfold r_row.
    by rewrite (same_but_case_lower _ _ Hhost), (same_but_case_lower _ _ Huser),
         Hpath, Hcmd. }
  assert (Hres : result (process_search (CbEnterpriseResponseAPI select_where)
                           query query_base translate)
                 = Return {[ r_row p1 ]}).
  { rewrite (process_search_sent (CbEnterpriseResponseAPI select_where)
               query query_base translate query eq_refl).
    unfold answer. rewrite Hsel. cbn [records ending finish result mret M_ret].
    rewrite !fmap_cons, <- Hrow. f_equal. set_solver. }
  split; [|split; [|split; [|split; [|split; [|split; [|split; [|split;
    [|split; [|split; [|split; [|split; [|split; [|split; [|split]]]]]]]]]]]]]].
  - intros results search. split; [set_solver|]. f_equal. set_solver.
  - intros cb [search_field terms] rest qb tr results.
    destruct (process_search_cases cb (field_query search_field terms) qb tr)
      as [[found Hfound]|[e He]].
    + rewrite !(nested_loop_cons_return _ _ _ _ _ _ _ found Hfound).
      cbn [result]. f_equal. apply nested_loop_results_eq. set_solver.
    + change (nested_loop cb ((search_field, terms) :: ?l) qb tr results)
        with (process_search cb (field_query search_field terms) qb tr
              ≫= λ found, nested_loop cb l qb tr (results ∪ found)).
      by rewrite !(bind_raise _ _ e He).
  - intros [[[a b] c] d] [[[a' b'] c'] d']. simpl. split.
    + by intros [= -> -> -> ->].
    + by intros (-> & -> & -> & ->).
  - exact Hrow.
  - exact Hres.
  - unfold returned. rewrite Hres. apply size_singleton.
  - intros found program source. rewrite write_rows_run. cbn [trace].
    rewrite rows_write. apply NoDup_fmap_2; [|apply NoDup_elements].
    intros [[[a b] c] d] [[[a' b'] c'] d']. simpl. by intros [= -> -> -> ->].
  - intros cb q qb tr r Hr.
    destruct (returned_from_answer cb q qb tr r Hr) as [sent Hsent].
    by apply (answer_lowercase cb sent).
  - intros t1 t2 Hdev Husr Hname Hcmdline. unfold th_row.
    by rewrite (same_but_case_lower _ _ Hdev), (same_but_case_lower _ _ Husr),
         Hname, Hcmdline.
  - by intros [].
  - intros t. reflexivity.
  - intros s t. split; [apply lower_same_but_case | apply same_but_case_lower].
  - intros s. split; [apply no_upper_lower|]. split; [apply length_lower|].
    split; [|apply lower_no_upper].
    apply lower_same_but_case. by rewrite lower_idemp.
  - intros pa pb. apply r_row_eq_iff.
  - exact Hres.
  - intros sel q qb tr pa pb Hstream Hdiffer.
    assert (Hne : r_row pa ≠ r_row pb).
    { intros Heq. by apply Hdiffer, r_row_eq_iff. }
    assert (Hboth : result (process_search (CbEnterpriseResponseAPI sel) q qb tr)
                    = Return {[ r_row pa; r_row pb ]}).
    { rewrite (process_search_sent (CbEnterpriseResponseAPI sel) q qb tr q
                 eq_refl).
      unfold answer. rewrite Hstream.
      cbn [records ending finish result mret M_ret].
      rewrite !fmap_cons. f_equal. set_solver. }
    split; [exact Hboth|]. unfold returned. rewrite Hboth.
    rewrite size_union by set_solver. by rewrite !size_singleton.
Qed.

(** ["PC1"/"Al"] and ["pc1"/"al"] collapse to the one entry
    [("pc1", "al", "c", "c")]. *)
Lemma C2_witness_case_collapse :
  size (returned (process_search
                    (CbEnterpriseResponseAPI SampleCase.select_where)
                    "q" "" false)) = 1%nat
  ∧ result (process_search (CbEnterpriseResponseAPI SampleCase.select_where)
              "q" "" false)
    = Return {[ ("pc1", "al", "c", "c") ]}.
Proof.
  destruct (C2_result_sets_deduplicate SampleCase.select_where "q" "" false
              Sample.pc1_upper Sample.pc1_lower
              eq_refl eq_refl eq_refl eq_refl eq_refl)
    as (_ & _ & _ & _ & _ & Hsize & _ & _ & _ & _ & _ & _ & _ & _ & Hres & _).
  split; [exact Hsize | exact Hres].
Defined.

(** Two records that differ in their command line stay two entries. *)
Example distinct_records_stay_distinct :
  r_row Sample.pc1_lower ≠ r_row Sample.pc2
  ∧ r_row Sample.pc1_upper = ("pc1", "al", "c", "c")
  ∧ th_row (<["device_name" := "PC1"]> (<["process_name" := "C.exe"]> ∅))
    = ("pc1", "none", "C.exe", "None").
Proof. split; [discriminate|]. split; reflexivity. Qed.

(** ** C7: the indicator file *)



Lemma rows_concat (ts : list (list event)) :
  rows (concat ts) = concat (rows <$> ts).
Proof.
  induction ts as [|t ts IH]; [done|].
  rewrite fmap_cons. cbn [concat]. by rewrite rows_app, IH.
Qed.

Lemma selects_rows l (f : Result → list string) :
  selects ((λ r, WriteRow (f r)) <$> l) = [].
Proof. induction l as [|r l IH]; [done|]. by rewrite fmap_cons. Qed.

Lemma ioc_report_rows found ioc :
  rows (ioc_report found ioc) = (λ r, make_row r ioc "ioc") <$> elements found.
Proof.
  unfold ioc_report.
  change (rows (Stdout ?s :: ?t)) with (rows t).
  by rewrite rows_app, rows_log_count, rows_write.
Qed.


(** The preamble of a run on an indicator file with its indicator type. *)
Lemma preamble_ioc_mode w args f0 f ty :
  sources args = [f0] → arg_iocfile args = Some f → arg_ioctype args = Some ty →
  preamble w args = Run [] (Return (base_fragment w args, []))
  ∧ Py.truthy_opt (arg_query args) = false.
Proof.
  intros Hsrc Hioc Hty.
  destruct (exclusive_iocfile args f0 f Hsrc Hioc) as (Hdeffile & Hdefdir & Hq).
  split; [|by rewrite Hq].
  rewrite preamble_eq, Hty. unfold in_query. rewrite Hq. simpl.
  rewrite !andb_false_r. unfold find_definition_files.
  rewrite Hdeffile, Hdefdir. reflexivity.
Qed.

(** The loop over the lines of the indicator file when every search returns. *)
Lemma ioc_loop_run cb args query_base ty (data : list string) :
  arg_ioctype args = Some ty →
  Forall (λ line,
            returns (process_search cb (ty +:+ ":" +:+ Py.strip line) query_base
                       (arg_translate args))) data →
  for_each data (survey_ioc cb args query_base)
  = Run (concat
           ((λ line,
               (trace (process_search cb (ty +:+ ":" +:+ Py.strip line)
                         query_base (arg_translate args))
                ++ ioc_report
                     (returned (process_search cb (ty +:+ ":" +:+ Py.strip line)
                                  query_base (arg_translate args)))
                     (Py.strip line))%list) <$> data))
        (Return ()).
Proof.
  intros Hty Hret.
  assert (Hone : ∀ line,
            returns (process_search cb (ty +:+ ":" +:+ Py.strip line) query_base
                       (arg_translate args)) →
            survey_ioc cb args query_base line
            = Run (trace (process_search cb (ty +:+ ":" +:+ Py.strip line)
                            query_base (arg_translate args))
                   ++ ioc_report
                        (returned (process_search cb
                                     (ty +:+ ":" +:+ Py.strip line)
                                     query_base (arg_translate args)))
                        (Py.strip line))
                  (Return ())).
  { intros line [found Hfound].
    pose proof (survey_ioc_run cb args query_base line found) as Hrun.
    rewrite Hty in Hrun. simpl in Hrun. rewrite (Hrun Hfound).
    unfold returned. by rewrite Hfound. }
  rewrite for_each_all_return.
  - f_equal. f_equal. apply Forall_fmap_ext_1.
    eapply Forall_impl; [exact Hret|]. intros line Hline. simpl.
    by rewrite (Hone line Hline).
  - eapply Forall_impl; [exact Hret|]. intros line Hline. simpl.
    exists (). by rewrite (Hone line Hline).
Qed.




(** ** C8: program and source labels *)





Lemma rows_nested_loop cb criteria query_base translate results :
  rows (trace (nested_loop cb criteria query_base translate results)) = [].
Proof.
  revert results.
  induction criteria as [|[search_field terms] rest IH]; intros results; [done|].
  destruct (process_search_cases cb (field_query search_field terms) query_base
              translate) as [[found Hfound]|[e He]].
  - rewrite (nested_loop_cons_return _ _ _ _ _ _ _ found Hfound). cbn [trace].
    by rewrite rows_app, rows_search, IH.
  - change (nested_loop cb ((search_field, terms) :: rest) query_base translate
              results)
      with (process_search cb (field_query search_field terms) query_base
              translate
            ≫= λ found, nested_loop cb rest query_base translate (results ∪ found)).
    rewrite (bind_raise _ _ e He). cbn [trace]. apply rows_search.
Qed.



(** The rows of one program whose searches returned: one row per element of
    the result set, labelled with the program and the source. *)
Lemma survey_program_rows cb args query_base source program criteria found :
  result (nested_process_search cb criteria query_base (arg_translate args))
  = Return found →
  result (survey_program cb args query_base source (program, criteria))
  = Return ()
  ∧ rows (trace (survey_program cb args query_base source (program, criteria)))
    = (λ r, make_row r program source) <$> elements found.
Proof.
  intros Hfound. unfold survey_program.
  rewrite (bind_return _ _ found Hfound), write_rows_run.
  unfold log_count, log. rewrite !bind_emit. cbn [trace result].
  split; [done|].
  change (rows (Stdout ?s :: ?t)) with (rows t).
  rewrite rows_app. unfold nested_process_search. rewrite rows_nested_loop.
  change (rows (Stdout ?s :: ?t)) with (rows t).
  by rewrite rows_write.
Qed.



(** The rows of that run: the header and one row for the matching process,
    with program [chrome] and source [browsers]. *)
Example browsers_scenario_rows :
  rows (trace (main SampleDefinition.world SampleDefinition.argv))
  = [header; ["pc2"; "bo"; "d"; "d"; "chrome"; "browsers"]]
  ∧ result (main SampleDefinition.world SampleDefinition.argv) = Return ().
Proof. vm_compute. done. Qed.

(** * Further properties of the program *)

(** ** The base fragment reaches every query *)

Lemma queries_satisfy_bind {A B} P (m : M A) (f : A → M B) :
  queries_satisfy P m → (∀ a, queries_satisfy P (f a)) →
  queries_satisfy P (m ≫= f).
Proof.
  unfold queries_satisfy. intros Hm Hf. unfold mbind, M_bind.
  destruct (result m) as [a|c|e]; cbn [trace]; [|done|done].
  rewrite selects_app. apply Forall_app. split; [done | apply Hf].
Qed.

Lemma queries_satisfy_for_each {A} P (l : list A) (body : A → M unit) :
  (∀ x, queries_satisfy P (body x)) → queries_satisfy P (for_each l body).
Proof.
  intros Hbody. induction l as [|x l IH]; [constructor|].
  rewrite for_each_cons. apply queries_satisfy_bind; [apply Hbody | by intros _].
Qed.

Lemma queries_satisfy_silent {A} P (m : M A) :
  selects (trace m) = [] → queries_satisfy P m.
Proof. unfold queries_satisfy. intros ->. constructor. Qed.

Lemma queries_satisfy_write P result_set program source :
  queries_satisfy P (write_rows result_set program source).
Proof.
  apply queries_satisfy_silent. rewrite write_rows_run. apply selects_rows.
Qed.

Lemma survey_queries w args query_base files :
  queries_satisfy (λ q, ∃ p, q = p +:+ query_base)
    (survey w args query_base files).
Proof.
  assert (Hreport : ∀ (found : gset Result) program source,
            queries_satisfy (λ q, ∃ p, q = p +:+ query_base)
              (log_count found ;; write_rows found program source)).
  { intros found program source.
    apply queries_satisfy_bind; [by apply queries_satisfy_silent|].
    intros _. apply queries_satisfy_write. }
  unfold survey.
  destruct (Py.truthy_opt (arg_query args)).
  - unfold survey_query.
    apply queries_satisfy_bind; [by apply queries_satisfy_silent|]. intros _.
    apply queries_satisfy_bind; [apply process_search_selects|].
    intros found. apply Hreport.
  - destruct (Py.truthy_opt (arg_iocfile args)).
    + unfold survey_iocfile.
      destruct (file_text w _) as [text|]; [|by apply queries_satisfy_silent].
      apply queries_satisfy_bind; [by apply queries_satisfy_silent|]. intros _.
      apply queries_satisfy_for_each. intros line. unfold survey_ioc.
      apply queries_satisfy_bind; [apply process_search_selects|].
      intros found.
      apply queries_satisfy_bind; [by apply queries_satisfy_silent|]. intros _.
      apply Hreport.
    + apply queries_satisfy_for_each. intros file.
      unfold survey_definition_file.
      apply queries_satisfy_bind; [by apply queries_satisfy_silent|]. intros _.
      destruct (file_text w file) as [text|];
        [|by apply queries_satisfy_silent].
      destruct (json_load w text) as [programs|];
        [|by apply queries_satisfy_silent].
      apply queries_satisfy_for_each. intros [program criteria].
      unfold survey_program.
      apply queries_satisfy_bind; [by apply queries_satisfy_silent|]. intros _.
      apply queries_satisfy_bind; [apply nested_loop_selects|].
      intros found. apply Hreport.
Qed.

(** X1. Whatever the mode of the run, every query that reaches the backend
    ends with the base fragment of the run: the time window, then the host
    constraint, then the user constraint. *)
Theorem base_fragment_ends_every_query
    (w : World) (argv : list cli_opt) (args : Args)
    (Hparse : result (parse_args argv) = Return args) :
  Forall (λ q, ∃ p,
            q = p +:+ ((time_window w args +:+ host_clause args)
                       +:+ user_clause args))
         (selects (trace (main w argv))).
Proof.
  rewrite (main_parsed w argv args Hparse).
  destruct (preamble_cases w args) as [[files Hpre]|[[msg Hpre]|[msg Hpre]]].
  - rewrite (main_body_pass w args files Hpre). cbn [trace].
    change (selects (OpenOutput ?n :: WriteRow ?h :: ?t)) with (selects t).
    rewrite selects_app. apply Forall_app. split.
    + apply (survey_queries w args (base_fragment w args) files).
    + destruct (result (survey w args (base_fragment w args) files));
        constructor.
  - rewrite (main_body_stop w args _ _ Hpre). constructor.
  - rewrite (main_body_stop w args _ _ Hpre). constructor.
Qed.

Lemma base_fragment_ends_every_query_witness :
  Forall (λ q, ∃ p,
            q = p +:+ ((time_window SampleIoc.world SampleFilter.args
                        +:+ host_clause SampleFilter.args)
                       +:+ user_clause SampleFilter.args))
         (selects (trace (main SampleIoc.world SampleFilter.argv))).
Proof.
  apply (base_fragment_ends_every_query SampleIoc.world SampleFilter.argv
           SampleFilter.args).
  reflexivity.
Defined.

Example filtered_indicator_queries :
  selects (trace (main SampleIoc.world SampleFilter.argv))
  = ["ipaddr:1.2.3.4 start:-5m hostname:h";
     "ipaddr:5.6.7.8 start:-5m hostname:h"].
Proof. vm_compute. reflexivity. Qed.

(** ** When [process_search] raises, and what it returns *)

(** X2. [process_search] raises exactly the exceptions other than the
    operator's interrupt that end the iteration over the records, and the
    exceptions other than the interrupt and the server error that the
    conversion of the query raises.  In particular a server error during the
    iteration is not handled: only the one of the conversion is. *)
Theorem process_search_raises_iff
    (cb : cb_conn) (query query_base : string) (translate : bool) (e : exn) :
  result (process_search cb query query_base translate) = Raise e
  ↔ e ≠ KeyboardInterrupt
    ∧ ((conversion_failure cb query translate = Some e ∧ e ≠ ServerError)
       ∨ ∃ query', to_send cb query translate = Some query'
                   ∧ ending (answer cb (query' +:+ query_base)) = Some e).
Proof.
  destruct (to_send cb query translate) as [query'|] eqn:Hsend.
  - rewrite (process_search_sent cb query query_base translate query' Hsend).
    cbn [result]. rewrite finish_result.
    assert (Hconv : conversion_failure cb query translate = None).
    { destruct cb as [sel|conv sel]; [done|]. unfold to_send in Hsend.
      unfold conversion_failure. destruct translate; [|done].
      by destruct (conv query). }
    rewrite Hconv. split.
    + intros Hraise. split.
      * intros ->.
        by destruct (ending (answer cb (query' +:+ query_base))) as [[| |?]|].
      * right. exists query'. split; [done|].
        destruct (ending (answer cb (query' +:+ query_base))) as [[| |?]|];
          congruence.
    + intros [Hne [[? _]|(q & [= <-] & Hend)]]; [done|].
      rewrite Hend. by destruct e.
  - destruct cb as [sel|conv sel]; [done|].
    unfold to_send in Hsend. destruct translate; [|done].
    unfold process_search, conversion_failure. rewrite bind_emit.
    destruct (conv query) as [[| |what]|q]; [| | |done]; cbn; split.
    + done.
    + intros [_ [[[= <-] ?]|(? & ? & _)]]; done.
    + done.
    + intros [? [[[= <-] _]|(? & ? & _)]]; done.
    + intros [= <-]. split; [done|]. left. done.
    + intros [_ [[[= <-] _]|(? & ? & _)]]; done.
Qed.

(** X3. The operator's interrupt is caught during the conversion of the query
    as well: the search logs it, sends nothing and returns the empty set. *)
Theorem interrupt_during_conversion_is_caught
    (cb : cb_conn) (query query_base : string) (translate : bool)
    (Hint : conversion_failure cb query translate = Some KeyboardInterrupt) :
  process_search cb query query_base translate
  = Run [ConvertQuery query; Stdout caught_ctrl_c] (Return ∅).
Proof.
  destruct cb as [sel|conv sel]; [done|].
  unfold conversion_failure in Hint. destruct translate; [|done].
  unfold process_search. rewrite bind_emit.
  destruct (conv query) as [e|q]; [|done]. by inversion Hint; subst.
Qed.

Lemma interrupt_during_conversion_witness :
  process_search SampleConversion.backend "q" " start:-5m" true
  = Run [ConvertQuery "q"; Stdout caught_ctrl_c] (Return ∅).
Proof.
  apply (interrupt_during_conversion_is_caught SampleConversion.backend).
  reflexivity.
Defined.

(** X4. When the backend yields all its records, the search returns exactly
    the normalised rows of the records it yielded, each once: the result has
    at most as many elements as records were yielded, and nothing is logged. *)
Theorem exhausted_search_returns_every_row
    (cb : cb_conn) (query query' query_base : string) (translate : bool)
    (Hsend : to_send cb query translate = Some query')
    (Hend : ending (answer cb (query' +:+ query_base)) = None) :
  ∃ found,
    process_search cb query query_base translate
    = Run (conversion cb query translate ++ [Select (query' +:+ query_base)])
          (Return found)
    ∧ (∀ r, r ∈ found ↔ r ∈ records (answer cb (query' +:+ query_base)))
    ∧ (size found ≤ length (records (answer cb (query' +:+ query_base))))%nat.
Proof.
  exists (list_to_set (records (answer cb (query' +:+ query_base)))).
  split; [|split].
  - rewrite (process_search_sent cb query query_base translate query' Hsend).
    by rewrite Hend.
  - intros r. apply elem_of_list_to_set.
  - generalize (records (answer cb (query' +:+ query_base))). intros l.
    induction l as [|r l IH]; [by rewrite list_to_set_nil, size_empty|].
    rewrite list_to_set_cons, size_union_alt, size_singleton. cbn [length].
    assert (size ((list_to_set l : gset Result) ∖ {[r]})
            ≤ size (list_to_set l : gset Result))%nat
      by (apply subseteq_size; set_solver).
    lia.
Qed.

Lemma exhausted_search_witness :
  ∃ found,
    process_search SampleExhausted.backend "q" "" false
    = Run (conversion SampleExhausted.backend "q" false ++ [Select ("q" +:+ "")])
          (Return found)
    ∧ (∀ r, r ∈ found
            ↔ r ∈ records (answer SampleExhausted.backend ("q" +:+ "")))
    ∧ (size found
       ≤ length (records (answer SampleExhausted.backend ("q" +:+ ""))))%nat.
Proof.
  apply (exhausted_search_returns_every_row SampleExhausted.backend
           "q" "q" "" false); reflexivity.
Defined.

(** X5. A record of the cloud backend that lacks a field is read as the text
    [None] for that field; since endpoint and user name are put in lower case
    afterwards, a missing device name gives the endpoint [none] and a missing
    user name the user [none], while a missing process name or command line
    gives [None]. *)
Theorem cloud_missing_field_reads_none (proc : th_Process) :
  (proc !! "device_name" = None → (th_row proc).1.1.1 = "none")
  ∧ (proc !! "process_username" = None → (th_row proc).1.1.2 = "none")
  ∧ (proc !! "process_name" = None → (th_row proc).1.2 = "None")
  ∧ (proc !! "process_cmdline" = None → (th_row proc).2 = "None")
  ∧ (∀ v, proc !! "device_name" = Some v → (th_row proc).1.1.1 = Py.lower v)
  ∧ (∀ v, proc !! "process_name" = Some v → (th_row proc).1.2 = v).
Proof.
  unfold th_row, str_get. cbn [fst snd].
  repeat split; intros; by simplify_option_eq.
Qed.

(** ** Conversions happen only on the cloud backend with [--translate] *)

Lemma events_satisfy_bind {A B} P (m : M A) (f : A → M B) :
  events_satisfy P m → (∀ a, events_satisfy P (f a)) →
  events_satisfy P (m ≫= f).
Proof.
  unfold events_satisfy. intros Hm Hf. unfold mbind, M_bind.
  destruct (result m) as [a|c|e]; cbn [trace]; [|done|done].
  apply Forall_app. split; [done | apply Hf].
Qed.

Lemma events_satisfy_for_each {A} P (l : list A) (body : A → M unit) :
  (∀ x, events_satisfy P (body x)) → events_satisfy P (for_each l body).
Proof.
  intros Hbody. induction l as [|x l IH]; [constructor|].
  rewrite for_each_cons. apply events_satisfy_bind; [apply Hbody | by intros _].
Qed.

Lemma events_satisfy_emit P (e : event) : P e → events_satisfy P (emit e).
Proof. intros H. by repeat constructor. Qed.

Lemma events_satisfy_write P result_set program source :
  (∀ row, P (WriteRow row)) →
  events_satisfy P (write_rows result_set program source).
Proof.
  intros H. unfold events_satisfy. rewrite write_rows_run. cbn [trace].
  apply Forall_fmap, Forall_forall. intros r _. apply H.
Qed.

Lemma process_search_no_conversion cb query query_base translate :
  conversion cb query translate = [] →
  events_satisfy (λ e, is_conversion e = false)
    (process_search cb query query_base translate).
Proof.
  intros Hconv.
  assert (Hrun : ∀ A (sel : string → stream A) row q,
            events_satisfy (λ e, is_conversion e = false)
              (run_query sel row q query_base)).
  { intros A sel row q. unfold run_query.
    apply events_satisfy_bind; [by apply events_satisfy_emit|]. intros _.
    destruct (ending (sel _)) as [[| |what]|]; by repeat constructor. }
  destruct cb as [sel|conv sel]; unfold process_search; [apply Hrun|].
  destruct translate; [done | apply Hrun].
Qed.

Lemma nested_loop_no_conversion cb criteria query_base translate results :
  (∀ query, conversion cb query translate = []) →
  events_satisfy (λ e, is_conversion e = false)
    (nested_loop cb criteria query_base translate results).
Proof.
  intros Hconv. revert results.
  induction criteria as [|[search_field terms] rest IH]; intros results;
    [constructor|].
  change (nested_loop cb ((search_field, terms) :: rest) query_base translate
            results)
    with (process_search cb (field_query search_field terms) query_base translate
          ≫= λ found, nested_loop cb rest query_base translate (results ∪ found)).
  apply events_satisfy_bind; [by apply process_search_no_conversion|].
  intros found. apply IH.
Qed.

(** X6. The query conversion of the backend is called only when the cloud
    backend is selected and translation is requested: without [--cbc], or
    without [--translate], no run ever calls it. *)
Theorem conversion_needs_cbc_and_translate
    (w : World) (argv : list cli_opt) (args : Args)
    (Hparse : result (parse_args argv) = Return args)
    (Hoff : arg_cbc args && arg_translate args = false) :
  Forall (λ e, is_conversion e = false) (trace (main w argv)).
Proof.
  assert (Hconv : ∀ query,
            conversion (connect w args) query (arg_translate args) = []).
  { intros query. unfold connect, conversion.
    by destruct (arg_cbc args), (arg_translate args). }
  assert (Hreport : ∀ (found : gset Result) program source,
            events_satisfy (λ e, is_conversion e = false)
              (log_count found ;; write_rows found program source)).
  { intros found program source.
    apply events_satisfy_bind; [by apply events_satisfy_emit|].
    intros _. by apply events_satisfy_write. }
  rewrite (main_parsed w argv args Hparse).
  destruct (preamble_cases w args) as [[files Hpre]|[[msg Hpre]|[msg Hpre]]].
  - rewrite (main_body_pass w args files Hpre). cbn [trace].
    apply Forall_cons_2; [done|]. apply Forall_cons_2; [done|].
    apply Forall_app. split.
    + change (events_satisfy (λ e, is_conversion e = false)
                (survey w args (base_fragment w args) files)).
      unfold survey. destruct (Py.truthy_opt (arg_query args)).
      * unfold survey_query.
        apply events_satisfy_bind; [by apply events_satisfy_emit|]. intros _.
        apply events_satisfy_bind; [by apply process_search_no_conversion|].
        intros found. apply Hreport.
      * destruct (Py.truthy_opt (arg_iocfile args)).
        -- unfold survey_iocfile.
           destruct (file_text w _) as [text|]; [|constructor].
           apply events_satisfy_bind; [by apply events_satisfy_emit|].
           intros _. apply events_satisfy_for_each. intros line.
           unfold survey_ioc.
           apply events_satisfy_bind; [by apply process_search_no_conversion|].
           intros found.
           apply events_satisfy_bind; [by apply events_satisfy_emit|].
           intros _. apply Hreport.
        -- apply events_satisfy_for_each. intros file.
           unfold survey_definition_file.
           apply events_satisfy_bind; [by apply events_satisfy_emit|].
           intros _.
           destruct (file_text w file) as [text|]; [|constructor].
           destruct (json_load w text) as [programs|]; [|constructor].
           apply events_satisfy_for_each. intros [program criteria].
           unfold survey_program.
           apply events_satisfy_bind; [by apply events_satisfy_emit|].
           intros _.
           apply events_satisfy_bind; [by apply nested_loop_no_conversion|].
           intros found. apply Hreport.
    + destruct (result (survey w args (base_fragment w args) files));
        by repeat constructor.
  - rewrite (main_body_stop w args _ _ Hpre). by repeat constructor.
  - rewrite (main_body_stop w args _ _ Hpre). by repeat constructor.
Qed.

Lemma conversion_needs_cbc_and_translate_witness :
  Forall (λ e, is_conversion e = false)
         (trace (main SampleIoc.world
                   (opt_translate :: SampleIoc.argv))).
Proof.
  apply (conversion_needs_cbc_and_translate SampleIoc.world
           (opt_translate :: SampleIoc.argv)
           (store (store (store default_args opt_translate)
                         (opt_iocfile "iocs.txt")) (opt_ioctype "ipaddr")));
    reflexivity.
Defined.

(** ** Exit status *)

Lemma preamble_exit_cases w args :
  (∃ files, preamble w args = Run [] (Return (base_fragment w args, files)))
  ∨ (∃ msg, preamble w args = Run [ParserError msg] (SysExit 2))
  ∨ (∃ what, preamble w args
             = Run [Stderr ("ERROR: " +:+ what +:+ " does not exist")]
                   (SysExit 1)
             ∧ (what = "deffile" ∨ what = "defdir")).
Proof.
  rewrite preamble_eq.
  destruct (_ && _); [right; left; by eexists|].
  destruct (_ && _); [right; left; by eexists|].
  destruct (_ && _); [right; left; by eexists|].
  unfold find_definition_files.
  destruct (Py.truthy_opt (arg_deffile args)).
  - destruct (path_exists w _); cbn.
    + left. by eexists.
    + right; right. exists "deffile". split; [reflexivity | by left].
  - destruct (Py.truthy_opt (arg_defdir args)); [|left; by eexists].
    destruct (path_exists w _); cbn.
    + left. by eexists.
    + right; right. exists "defdir". split; [reflexivity | by right].
Qed.

(** X7. A run ends with exit status 0, 1 or 2.  It is 2 exactly when the run
    consists of one argument error, 0 exactly when the run completes, which
    is when it closes the output file and reports where the results were
    saved, and 1 when a definition file or directory is missing or an
    exception is not caught. *)
Theorem exit_status_of_a_run (w : World) (argv : list cli_opt) :
  (exit_status (result (main w argv)) = 0
   ∨ exit_status (result (main w argv)) = 1
   ∨ exit_status (result (main w argv)) = 2)
  ∧ (exit_status (result (main w argv)) = 2
     ↔ ∃ msg, main w argv = Run [ParserError msg] (SysExit 2))
  ∧ (exit_status (result (main w argv)) = 0
     ↔ ∃ body msg,
         main w argv = Run (body ++ [CloseOutput; Stdout msg]) (Return ()))
  ∧ (exit_status (result (main w argv)) = 1
     ↔ (∃ what, main w argv
                = Run [Stderr ("ERROR: " +:+ what +:+ " does not exist")]
                      (SysExit 1))
       ∨ ∃ e, result (main w argv) = Raise e).
Proof.
  unfold main, parse_args.
  destruct (parse_loop_cases argv None default_args) as [[args ->]|[msg ->]].
  - rewrite bind_pure.
    destruct (preamble_exit_cases w args)
      as [[files Hpre]|[[msg Hpre]|(what & Hpre & _)]].
    + rewrite (main_body_pass w args files Hpre).
      destruct (tame_survey w args (base_fragment w args) files) as [_ Hexit].
      destruct (result (survey w args (base_fragment w args) files))
        as [[]|c|e] eqn:Hres; [| by destruct (Hexit c) |]; cbn.
      * split; [by left|]. split; [split; [done | by intros [? [=]]]|].
        split; [|split; [done | by intros [[? [=]]|[? [=]]]]].
        split; [|done]. intros _.
        eexists (OpenOutput _ :: WriteRow header :: trace (survey w args _ files)), _.
        reflexivity.
      * split; [right; by left|]. split; [split; [done | by intros [? [=]]]|].
        split; [split; [done | by intros (? & ? & [=])]|].
        split; [|done]. intros _. right. by eexists.
    + rewrite (main_body_stop w args _ _ Hpre). cbn.
      split; [right; by right|]. split; [split; [by eexists | done]|].
      split; [split; [done | by intros (? & ? & [=])]|].
      split; [done | by intros [[? [=]]|[? [=]]]].
    + rewrite (main_body_stop w args _ _ Hpre). cbn.
      split; [right; by left|]. split; [split; [done | by intros [? [=]]]|].
      split; [split; [done | by intros (? & ? & [=])]|].
      split; [|done]. intros _. left. by eexists.
  - cbn. split; [right; by right|]. split; [split; [by eexists | done]|].
    split; [split; [done | by intros (? & ? & [=])]|].
    split; [done | by intros [[? [=]]|[? [=]]]].
Qed.

(** ** Reported counts *)

(** X8. The count reported for a program of a definition file is the number
    of rows written for it, which is the number of elements of its result
    set: records found by several fields of the program are counted and
    written once. *)
Theorem reported_count_is_number_of_rows
    (cb : cb_conn) (args : Args) (query_base source program : string)
    (criteria : Criteria) (found : gset Result)
    (Hfound : result (nested_process_search cb criteria query_base
                        (arg_translate args)) = Return found) :
  ∃ written,
    rows (trace (survey_program cb args query_base source (program, criteria)))
    = written
    ∧ length written = size found
    ∧ NoDup written
    ∧ Stdout ((": " +:+ pretty (length written) +:+ " results") +:+ newline)
      ∈ trace (survey_program cb args query_base source (program, criteria)).
Proof.
  destruct (survey_program_rows cb args query_base source program criteria found
              Hfound) as [_ Hrows].
  exists ((λ r, make_row r program source) <$> elements found).
  split; [exact Hrows|].
  assert (Hlen : length ((λ r, make_row r program source) <$> elements found)
                 = size found) by (by rewrite length_fmap).
  split; [exact Hlen|]. split.
  - apply NoDup_fmap_2; [|apply NoDup_elements].
    intros [[[a b] c] d] [[[a' b'] c'] d']. simpl. by intros [= -> -> -> ->].
  - rewrite Hlen. unfold survey_program.
    rewrite (bind_return _ _ found Hfound), write_rows_run.
    unfold log_count, log. rewrite !bind_emit. cbn [trace].
    apply elem_of_cons. right. apply elem_of_app. right. by left.
Qed.

Lemma reported_count_witness :
  ∃ written,
    rows (trace (survey_program SampleCriteria.backend default_args ""
                   "browsers" ("chrome", SampleCriteria.group)))
    = written
    ∧ length written
      = size (⋃ (returned <$> field_searches SampleCriteria.backend
                                SampleCriteria.group "" false))
    ∧ NoDup written
    ∧ Stdout ((": " +:+ pretty (length written) +:+ " results") +:+ newline)
      ∈ trace (survey_program SampleCriteria.backend default_args ""
                 "browsers" ("chrome", SampleCriteria.group)).
Proof.
  apply (reported_count_is_number_of_rows SampleCriteria.backend default_args
           "" "browsers" "chrome" SampleCriteria.group).
  unfold nested_process_search.
  rewrite nested_loop_all_return.
  - cbn [result]. by f_equal.
  - repeat (apply Forall_cons_2; [by eexists|]). apply Forall_nil_2.
Defined.

(** ** Files that cannot be read, and empty flag values *)

(** X9. The indicator file is not checked before the output file is opened:
    when it cannot be opened, the run has already created the output file and
    written the header, and ends with the exception, without closing the file
    and without any query. *)
Theorem unreadable_indicator_file_fails_after_header
    (w : World) (argv : list cli_opt) (args : Args) (f ty : string)
    (Hparse : result (parse_args argv) = Return args)
    (Hioc : arg_iocfile args = Some f) (Hf : Py.truthy f = true)
    (Hty : arg_ioctype args = Some ty)
    (Htext : file_text w f = None) :
  main w argv
  = Run [OpenOutput (output_filename args); WriteRow header]
        (Raise (OtherError "IOError")).
Proof.
  destruct (parse_args_returns argv args Hparse) as [_ [f0 Hsrc]].
  destruct (preamble_ioc_mode w args f0 f ty Hsrc Hioc Hty) as [Hpre Hq].
  rewrite (main_parsed w argv args Hparse), (main_body_pass w args [] Hpre).
  assert (survey w args (base_fragment w args) []
          = Run [] (Raise (OtherError "IOError"))) as ->.
  { unfold survey. rewrite Hq, Hioc. unfold Py.truthy_opt. rewrite Hf.
    cbv beta iota. unfold survey_iocfile. rewrite Hioc.
    cbn [from_option id]. by rewrite Htext. }
  reflexivity.
Qed.

Lemma unreadable_indicator_file_witness :
  main Sample.empty_world SampleMissing.argv
  = Run [OpenOutput (output_filename SampleMissing.args); WriteRow header]
        (Raise (OtherError "IOError")).
Proof.
  apply (unreadable_indicator_file_fails_after_header Sample.empty_world
           SampleMissing.argv SampleMissing.args "gone.txt" "md5");
    reflexivity.
Defined.



(** X11. In definition-directory mode the files processed are exactly the
    files found below the directory whose name ends with [.json], each joined
    with the directory that holds it; other files are ignored. *)
Theorem definition_directory_keeps_json_files
    (w : World) (args : Args) (defdir : string)
    (Hdeffile : Py.truthy_opt (arg_deffile args) = false)
    (Hdefdir : arg_defdir args = Some defdir)
    (Htruthy : Py.truthy defdir = true)
    (Hexists : path_exists w defdir = true) :
  ∃ files,
    find_definition_files w args = Run [] (Return files)
    ∧ ∀ file,
        file ∈ files
        ↔ ∃ root names name,
            (root, names) ∈ walk w defdir ∧ name ∈ names
            ∧ Py.endswith ".json" name = true
            ∧ file = Py.path_join root name.
Proof.
  unfold find_definition_files. rewrite Hdeffile, Hdefdir.
  cbn [Py.truthy_opt from_option id]. rewrite Htruthy, Hexists. cbn [negb].
  eexists. split; [reflexivity|]. intros file.
  rewrite list_elem_of_In, in_flat_map. split.
  - intros ([root names] & Hin & Hfile).
    apply list_elem_of_In, list_elem_of_fmap in Hfile as (name & -> & Hname).
    apply list_elem_of_filter in Hname as [Hjson Hname].
    exists root, names, name. rewrite <- list_elem_of_In in Hin.
    repeat split; try done. by apply Is_true_true.
  - intros (root & names & name & Hin & Hname & Hjson & ->).
    exists (root, names). rewrite <- list_elem_of_In. split; [done|].
    apply list_elem_of_In, list_elem_of_fmap. exists name. split; [done|].
    apply list_elem_of_filter. split; [by apply Is_true_true | done].
Qed.

Lemma definition_directory_witness :
  ∃ files,
    find_definition_files SampleDirectory.world SampleDirectory.args
    = Run [] (Return files)
    ∧ ∀ file,
        file ∈ files
        ↔ ∃ root names name,
            (root, names) ∈ walk SampleDirectory.world "defs" ∧ name ∈ names
            ∧ Py.endswith ".json" name = true
            ∧ file = Py.path_join root name.
Proof.
  apply (definition_directory_keeps_json_files SampleDirectory.world
           SampleDirectory.args "defs");
    reflexivity.
Defined.

Example definition_directory_files :
  find_definition_files SampleDirectory.world SampleDirectory.args
  = Run [] (Return ["defs/a.json"; "defs/sub/b.json"]).
Proof. reflexivity. Qed.

(** ** The parser *)

Lemma parse_loop_returns_iff argv seen a :
  (∃ args, result (parse_loop argv seen a) = Return args)
  ↔ match seen with
    | Some g => ∃ n, source_flags argv = replicate n g
    | None => ∃ f n, source_flags argv = replicate (S n) f
    end.
Proof.
  revert seen a. induction argv as [|o rest IH]; intros seen a.
  - destruct seen as [g|]; cbn.
    + split; [intros _; by exists 0%nat | intros _; by eexists].
    + split; [by intros [? [=]] | by intros (? & ? & [=])].
  - unfold source_flags. cbn [parse_loop omap list_omap].
    fold (source_flags rest).
    destruct (group_flag o) as [f|] eqn:Hf; [|apply IH].
    destruct seen as [g|].
    + destruct (String.eqb f g) eqn:Hfg.
      * apply String.eqb_eq in Hfg as ->. rewrite IH. split.
        -- intros [n Hn]. exists (S n). by rewrite Hn.
        -- intros [[|n] Hn]; [done|]. exists n. by inversion Hn.
      * apply String.eqb_neq in Hfg. cbn. split; [by intros [? [=]]|].
        intros [[|n] Hn]; [done|]. by inversion Hn.
    + rewrite IH. split.
      * intros [n Hn]. exists f, n. by rewrite Hn.
      * intros (f' & n & Hn). exists n. by inversion Hn.
Qed.

(** X12. The parser accepts a command line exactly when one kind of criteria
    flag ([--deffile], [--defdir], [--query], [--iocfile]) occurs on it, once
    or repeated; a command line with none, or with two different ones, ends
    with an argument error and exit status 2 before anything else happens. *)
Theorem parser_needs_one_kind_of_criteria (argv : list cli_opt) :
  ((∃ args, parse_args argv = Run [] (Return args))
   ↔ ∃ f n, source_flags argv = replicate (S n) f)
  ∧ ((∃ msg, parse_args argv = Run [ParserError msg] (SysExit 2))
     ↔ ¬ ∃ f n, source_flags argv = replicate (S n) f)
  ∧ (∀ w, (¬ ∃ f n, source_flags argv = replicate (S n) f) →
          ∃ msg, main w argv = Run [ParserError msg] (SysExit 2)).
Proof.
  pose proof (parse_loop_returns_iff argv None default_args) as Hiff.
  fold (parse_args argv) in Hiff. cbn in Hiff.
  destruct (parse_loop_cases argv None default_args) as [[args Hok]|[msg Hbad]];
    fold (parse_args argv) in *.
  - assert (Hflags : ∃ f n, source_flags argv = replicate (S n) f).
    { apply Hiff. exists args. by rewrite Hok. }
    split; [split; [done | intros _; by exists args]|].
    split; [|by intros w []].
    split; [intros [msg Hmsg]; congruence | by intros []].
  - assert (Hflags : ¬ ∃ f n, source_flags argv = replicate (S n) f).
    { intros H. apply Hiff in H as [args Hargs]. by rewrite Hbad in Hargs. }
    split; [split; [intros [args Hargs]; congruence | done]|].
    split; [split; [done | intros _; by exists msg]|].
    intros w _. exists msg. unfold main. by rewrite Hbad.
Qed.

(** ** The output file *)

(** X13. A run that opens the output file opens [<prefix>-survey.csv], or
    [survey.csv] when the prefix is absent or empty, and writes the header as
    its first row, whatever the mode; a run that completes ends by naming that
    same file. *)
Theorem output_file_name_and_header
    (w : World) (argv : list cli_opt) (args : Args)
    (Hparse : result (parse_args argv) = Return args) :
  (opens (trace (main w argv)) = 0%nat
   ∨ ∃ body, trace (main w argv)
             = OpenOutput (output_filename args) :: WriteRow header :: body)
  ∧ (result (main w argv) = Return () →
     last (trace (main w argv))
     = Some (Stdout ((newline +:+ "Results saved: " +:+ output_filename args)
                     +:+ newline)))
  ∧ (∀ p, arg_prefix args = Some p → Py.truthy p = true →
          output_filename args = p +:+ "-survey.csv")
  ∧ (Py.truthy_opt (arg_prefix args) = false →
     output_filename args = "survey.csv").
Proof.
  rewrite (main_parsed w argv args Hparse).
  split; [|split; [|split]].
  - destruct (preamble_cases w args) as [[files Hpre]|[[msg Hpre]|[msg Hpre]]].
    + right. rewrite (main_body_pass w args files Hpre). by eexists.
    + left. by rewrite (main_body_stop w args _ _ Hpre).
    + left. by rewrite (main_body_stop w args _ _ Hpre).
  - destruct (preamble_cases w args) as [[files Hpre]|[[msg Hpre]|[msg Hpre]]].
    + rewrite (main_body_pass w args files Hpre). cbn [trace result].
      destruct (result (survey w args (base_fragment w args) files));
        [|done|done].
      intros _.
      change (OpenOutput ?a :: WriteRow ?b :: ?t ++ ?l)%list
        with ((OpenOutput a :: WriteRow b :: t) ++ l)%list.
      by rewrite last_app.
    + by rewrite (main_body_stop w args _ _ Hpre).
    + by rewrite (main_body_stop w args _ _ Hpre).
  - intros p Hp Htp. unfold output_filename. rewrite Hp.
    cbn [Py.truthy_opt from_option id]. by rewrite Htp.
  - intros Hp. unfold output_filename. by rewrite Hp.
Qed.

Lemma output_file_name_witness :
  (opens (trace (main SampleIoc.world
                   (opt_prefix "x" :: SampleIoc.argv))) = 0%nat
   ∨ ∃ body, trace (main SampleIoc.world (opt_prefix "x" :: SampleIoc.argv))
             = OpenOutput "x-survey.csv" :: WriteRow header :: body).
Proof.
  destruct (output_file_name_and_header SampleIoc.world
              (opt_prefix "x" :: SampleIoc.argv)
              (store (store (store default_args (opt_prefix "x"))
                            (opt_iocfile "iocs.txt")) (opt_ioctype "ipaddr"))
              eq_refl) as [Hopen _].
  exact Hopen.
Defined.

(** ** Empty criteria *)

(** X14. A program without criteria is not searched at all and is reported
    with 0 results and no row; a field without terms is still searched, with
    the query [()] followed by the base fragment. *)
Theorem empty_criteria_and_empty_terms
    (cb : cb_conn) (args : Args) (query_base source program : string) :
  survey_program cb args query_base source (program, [])
  = Run [Stdout ("--> " +:+ program); Stdout (": 0 results" +:+ newline)]
        (Return ())
  ∧ (∀ search_field select_where translate,
       selects (trace (nested_process_search
                         (CbEnterpriseResponseAPI select_where)
                         [(search_field, [])] query_base translate))
       = ["()" +:+ query_base]).
Proof.
  split.
  - unfold survey_program, nested_process_search. cbn [nested_loop].
    unfold log at 1. rewrite bind_emit, bind_mret, write_rows_run.
    unfold log_count, log. rewrite bind_emit, elements_empty, size_empty.
    by rewrite string_app_nil_r.
  - intros search_field sel translate.
    unfold nested_process_search.
    destruct (process_search_cases (CbEnterpriseResponseAPI sel)
                (field_query search_field []) query_base translate)
      as [[found Hfound]|[e He]].
    + rewrite (nested_loop_cons_return _ _ _ _ _ _ _ found Hfound). cbn [trace].
      by rewrite selects_app, response_search_selects, app_nil_r.
    + change (nested_loop ?cb ((search_field, []) :: ?rest) query_base translate
                ?results)
        with (process_search cb (field_query search_field []) query_base
                translate
              ≫= λ found, nested_loop cb rest query_base translate
                            (results ∪ found)).
      rewrite (bind_raise _ _ e He). cbn [trace].
      apply response_search_selects.
Qed.

(** ** Rows are deduplicated per indicator only *)

Lemma length_concat_fmap {A B} (f : A → list B) (l : list A) :
  length (concat (f <$> l)) = sum_list ((λ x, length (f x)) <$> l).
Proof.
  induction l as [|x l IH]; [done|].
  rewrite !fmap_cons. cbn [concat sum_list sum_list_with].
  by rewrite length_app, IH.
Qed.

(** X15. Result sets are kept per indicator: the number of rows written for
    an indicator file is the sum of the sizes of the result sets of its
    lines, so a record matched by several indicators, or an indicator listed
    twice, is written once for each. *)
Theorem rows_are_deduplicated_per_indicator
    (cb : cb_conn) (args : Args) (query_base ty : string)
    (data : list string)
    (Hty : arg_ioctype args = Some ty)
    (Hret : Forall (λ line,
                      returns (process_search cb (ty +:+ ":" +:+ Py.strip line)
                                 query_base (arg_translate args))) data) :
  length (rows (trace (for_each data (survey_ioc cb args query_base))))
  = sum_list ((λ line,
                 size (returned (process_search cb
                                   (ty +:+ ":" +:+ Py.strip line)
                                   query_base (arg_translate args))))
                <$> data)
  ∧ ∀ line,
      rows (trace (for_each [line; line] (survey_ioc cb args query_base)))
      = (rows (trace (for_each [line] (survey_ioc cb args query_base)))
         ++ rows (trace (for_each [line] (survey_ioc cb args query_base))))%list.
Proof.
  split.
  - rewrite (ioc_loop_run cb args query_base ty data Hty Hret). cbn [trace].
    rewrite rows_concat, <- list_fmap_compose, length_concat_fmap.
    f_equal. apply list_fmap_ext. intros _ line _. unfold compose.
    rewrite rows_app, rows_search, ioc_report_rows. cbn [app].
    by rewrite length_fmap.
  - intros line.
    destruct (process_search_cases cb
                (default "None" (arg_ioctype args) +:+ ":" +:+ Py.strip line)
                query_base (arg_translate args)) as [[found Hfound]|[e He]].
    + pose proof (survey_ioc_run cb args query_base line found Hfound) as Hrun.
      assert (Hres : result (survey_ioc cb args query_base line) = Return ())
        by (by rewrite Hrun).
      rewrite !(for_each_cons_return _ _ _ Hres). cbn [trace for_each].
      by rewrite !rows_app, !app_nil_r.
    + assert (Hone : survey_ioc cb args query_base line
                     = Run (trace (process_search cb
                                     (default "None" (arg_ioctype args)
                                      +:+ ":" +:+ Py.strip line)
                                     query_base (arg_translate args)))
                           (Raise e)).
      { unfold survey_ioc. by rewrite (bind_raise _ _ e He). }
      rewrite !for_each_cons.
      rewrite !(bind_raise _ _ e); try by rewrite Hone.
      rewrite Hone. cbn [trace]. by rewrite rows_search.
Qed.

Lemma rows_are_deduplicated_per_indicator_witness :
  length (rows (trace (for_each ["a"; "a"]
                         (survey_ioc SampleCriteria.backend SampleIoc.args ""))))
  = sum_list ((λ line,
                 size (returned (process_search SampleCriteria.backend
                                   ("ipaddr" +:+ ":" +:+ Py.strip line)
                                   "" false)))
                <$> ["a"; "a"]).
Proof.
  destruct (rows_are_deduplicated_per_indicator SampleCriteria.backend
              SampleIoc.args "" "ipaddr" ["a"; "a"] eq_refl) as [Hlen _].
  - repeat (apply Forall_cons_2; [by eexists|]). apply Forall_nil_2.
  - exact Hlen.
Defined.

(** ** The time window *)

(** X16. A day count stands for 1440 minutes each: [--days d] with [d] other
    than 0 adds the same time window as [--minutes] with [d * 1440], in both
    dialects; without a day or minute count other than 0 no window is added. *)
Theorem days_are_worth_1440_minutes
    (w : World) (a a' : Args) (d : Z)
    (Hcbc : arg_cbc a = arg_cbc a')
    (Hdays : arg_days a = Some d) (Hnz : d ≠ 0)
    (Hdays' : Py.truthy_int (arg_days a') = false)
    (Hminutes' : arg_minutes a' = Some (d * 1440)) :
  time_window w a = time_window w a'
  ∧ (∀ b, Py.truthy_int (arg_days b) = false →
          Py.truthy_int (arg_minutes b) = false → time_window w b = "").
Proof.
  split.
  - rewrite !time_window_eq, Hdays, Hdays', Hminutes', Hcbc.
    cbn [Py.truthy_int from_option id].
    assert ((d =? 0) = false) as -> by (by apply Z.eqb_neq).
    assert ((d * 1440 =? 0) = false) as -> by (apply Z.eqb_neq; lia).
    reflexivity.
  - intros b Hd Hm. by rewrite time_window_eq, Hd, Hm.
Qed.

Lemma days_are_worth_1440_minutes_witness :
  time_window Sample.empty_world SampleWindow.one_day
  = time_window Sample.empty_world SampleWindow.minutes_1440.
Proof.
  destruct (days_are_worth_1440_minutes Sample.empty_world
              SampleWindow.one_day SampleWindow.minutes_1440 1
              eq_refl eq_refl) as [Heq _]; [lia | reflexivity | reflexivity |].
  exact Heq.
Defined.

(** ** The source label of a definition file *)

Lemma rfind_lacks c s : lacks c s = true → Py.rfind c s = -1.
Proof.
  induction s as [|a s IH]; [done|]. cbn [lacks Py.rfind].
  intros [Ha Hs]%andb_true_iff. rewrite (IH Hs). cbn.
  by apply negb_true_iff in Ha as ->.
Qed.

Lemma rfind_app_lacks c pre s :
  lacks c s = true → Py.rfind c (pre +:+ s) = Py.rfind c pre.
Proof.
  intros Hs. induction pre as [|a pre IH]; [by apply rfind_lacks|].
  rewrite string_app_cons. cbn [Py.rfind]. by rewrite IH.
Qed.

Lemma rfind_last c r :
  Py.rfind c (r +:+ String c "") = Z.of_nat (String.length r).
Proof.
  induction r as [|a r IH].
  - change ("" +:+ String c "") with (String c ""). unfold Py.rfind.
    by rewrite Ascii.eqb_refl.
  - rewrite string_app_cons. cbn [Py.rfind String.length]. rewrite IH.
    destruct (0 <=? Z.of_nat (String.length r)) eqn:Hle; [lia|].
    apply Z.leb_gt in Hle. lia.
Qed.

Lemma slice_from_app p s : Py.slice_from (String.length p) (p +:+ s) = s.
Proof. induction p as [|a p IH]; [done|]. by rewrite string_app_cons. Qed.

Lemma slice_to_app p s : Py.slice_to (String.length p) (p +:+ s) = p.
Proof.
  induction p as [|a p IH]; [done|].
  rewrite string_app_cons. cbn [String.length Py.slice_to]. by rewrite IH.
Qed.

Lemma length_app_char r c : String.length (r +:+ String c "") = S (String.length r).
Proof.
  induction r as [|a r IH]; [done|].
  rewrite string_app_cons. cbn [String.length]. by rewrite IH.
Qed.

Lemma lacks_app c s t :
  lacks c (s +:+ t) = lacks c s && lacks c t.
Proof.
  induction s as [|a s IH]; [done|].
  rewrite string_app_cons. cbn [lacks]. by rewrite IH, andb_assoc.
Qed.

Lemma endswith_char c s :
  Py.endswith (String c "") s = true → ∃ r, s = r +:+ String c "".
Proof.
  induction s as [|a s IH]; [done|]. cbn [Py.endswith].
  intros [Heq|Hrest]%orb_true_iff.
  - apply String.eqb_eq in Heq as <-. by exists "".
  - destruct (IH Hrest) as [r ->]. by exists (String a r).
Qed.

Lemma has_non_dot_app name rest :
  Py.has_non_dot (String.length name) (name +:+ rest) = negb (all_dots name).
Proof.
  induction name as [|a name IH]; [done|].
  rewrite string_app_cons. cbn [String.length Py.has_non_dot all_dots].
  destruct (Ascii.eqb a "."); [apply IH | done].
Qed.

(** The base name of a file name put behind nothing or behind a directory. *)
Lemma basename_behind_directory pre file :
  lacks "/" file = true →
  pre = "" ∨ (∃ r, pre = r +:+ "/") →
  Py.basename (pre +:+ file) = file.
Proof.
  intros Hfile Hpre. unfold Py.basename.
  rewrite (rfind_app_lacks _ pre file Hfile).
  destruct Hpre as [->|[r ->]]; [done|].
  rewrite rfind_last.
  replace (Z.to_nat (Z.of_nat (String.length r) + 1))
    with (String.length (r +:+ "/")) by (rewrite length_app_char; lia).
  apply slice_from_app.
Qed.

Lemma path_join_behind root file :
  Py.startswith "/" file = false →
  ∃ pre, Py.path_join root file = pre +:+ file
         ∧ (pre = "" ∨ ∃ r, pre = r +:+ "/").
Proof.
  intros Hfile. unfold Py.path_join. rewrite Hfile.
  destruct (negb (Py.truthy root) || Py.endswith "/" root) eqn:Hroot.
  - exists root. split; [done|].
    apply orb_true_iff in Hroot as [Hempty|Hslash].
    + left. by destruct root.
    + right. by apply endswith_char.
  - exists (root +:+ "/"). split; [by rewrite string_app_assoc|].
    right. by exists root.
Qed.

(** X17. The source label of a definition file [name.ext] is [name], whatever
    directory the file was found in: the directory and the extension are
    dropped, so files of the same name in different directories share their
    label.  (Here [name] has a character other than the dot, and neither part
    contains a slash nor the extension a dot.) *)
Theorem source_label_drops_directory_and_extension
    (root name ext : string)
    (Hname : all_dots name = false)
    (Hname_slash : lacks "/" name = true)
    (Hext_slash : lacks "/" ext = true)
    (Hext_dot : lacks "." ext = true) :
  source_label (Py.path_join root (name +:+ "." +:+ ext)) = name
  ∧ source_label (name +:+ "." +:+ ext) = name.
Proof.
  assert (Hfile : lacks "/" (name +:+ "." +:+ ext) = true).
  { by rewrite !lacks_app, Hname_slash, Hext_slash. }
  assert (Hlabel : (Py.splitext (name +:+ "." +:+ ext)).1 = name).
  { unfold Py.splitext. rewrite (rfind_lacks _ _ Hfile).
    rewrite <- (string_app_assoc name "." ext).
    rewrite (rfind_app_lacks "." (name +:+ ".") ext Hext_dot), rfind_last.
    assert ((-1 <? Z.of_nat (String.length name)) = true) as ->
      by (apply Z.ltb_lt; lia).
    replace (Z.to_nat (Z.of_nat (String.length name) - (-1 + 1)))
      with (String.length name) by lia.
    replace (Z.to_nat (Z.of_nat (String.length name))) with (String.length name)
      by lia.
    change (Z.to_nat (-1 + 1)) with 0%nat. cbn [Py.slice_from].
    rewrite (string_app_assoc name "." ext), has_non_dot_app, Hname.
    cbn [negb andb fst]. apply slice_to_app. }
  assert (Hstart : Py.startswith "/" (name +:+ "." +:+ ext) = false).
  { destruct name as [|a name]; [done|].
    rewrite string_app_cons. cbn [Py.startswith].
    cbn [lacks] in Hname_slash.
    apply andb_true_iff in Hname_slash as [Ha _].
    apply negb_true_iff in Ha. rewrite Ascii.eqb_sym, Ha. done. }
  split.
  - destruct (path_join_behind root _ Hstart) as (pre & -> & Hpre).
    unfold source_label.
    by rewrite (basename_behind_directory pre _ Hfile Hpre).
  - unfold source_label.
    pose proof (basename_behind_directory "" _ Hfile (or_introl eq_refl))
      as Hbase.
    change ("" +:+ name +:+ "." +:+ ext) with (name +:+ "." +:+ ext) in Hbase.
    by rewrite Hbase.
Qed.

Lemma source_label_witness :
  source_label (Py.path_join "defs/sub" ("browsers" +:+ "." +:+ "json"))
  = "browsers"
  ∧ source_label ("browsers" +:+ "." +:+ "json") = "browsers".
Proof.
  apply (source_label_drops_directory_and_extension "defs/sub" "browsers" "json");
    reflexivity.
Defined.

(** ** Indicators are trimmed *)

Lemma lstrip_spaces pad s :
  all_space pad = true → Py.lstrip (pad +:+ s) = Py.lstrip s.
Proof.
  induction pad as [|a pad IH]; [done|]. cbn [all_space].
  intros [Ha Hpad]%andb_true_iff.
  rewrite string_app_cons. cbn [Py.lstrip]. rewrite Ha. by apply IH.
Qed.

Lemma lstrip_solid s : starts_solid s = true → Py.lstrip s = s.
Proof.
  destruct s as [|a s]; [done|]. cbn [starts_solid Py.lstrip].
  by intros ->%negb_true_iff.
Qed.

Lemma rstrip_all_space pad : all_space pad = true → Py.rstrip pad = "".
Proof.
  induction pad as [|a pad IH]; [done|]. cbn [all_space Py.rstrip].
  intros [Ha Hpad]%andb_true_iff. by rewrite (IH Hpad), Ha.
Qed.

Lemma rstrip_spaces s pad :
  all_space pad = true → Py.rstrip (s +:+ pad) = Py.rstrip s.
Proof.
  intros Hpad. induction s as [|a s IH]; [by apply rstrip_all_space|].
  rewrite string_app_cons. cbn [Py.rstrip]. by rewrite IH.
Qed.

Lemma rstrip_solid s : ends_solid s = true → Py.rstrip s = s.
Proof.
  induction s as [|a s IH]; [done|].
  destruct s as [|b s].
  - cbn. by intros ->%negb_true_iff.
  - intros Hs. change (ends_solid (String a (String b s)))
      with (ends_solid (String b s)) in Hs.
    change (Py.rstrip (String a (String b s)))
      with (match Py.rstrip (String b s) with
            | EmptyString =>
                if Py.isspace a then EmptyString else String a EmptyString
            | r' => String a r'
            end).
    by rewrite (IH Hs).
Qed.

(** X18. An indicator is searched without the whitespace around it: a line
    made of whitespace, the indicator and more whitespace (the line end
    included) is treated exactly as the indicator alone, with the same query,
    the same report and the same rows. *)
Theorem indicator_is_trimmed
    (cb : cb_conn) (args : Args) (query_base before ioc after : string)
    (Hbefore : all_space before = true)
    (Hafter : all_space after = true)
    (Hstart : starts_solid ioc = true)
    (Hend : ends_solid ioc = true) :
  Py.strip (before +:+ ioc +:+ after) = ioc
  ∧ survey_ioc cb args query_base (before +:+ ioc +:+ after)
    = survey_ioc cb args query_base ioc.
Proof.
  assert (Hstrip : ∀ b a, all_space b = true → all_space a = true →
                          Py.strip (b +:+ ioc +:+ a) = ioc).
  { intros b a Hb Ha. unfold Py.strip.
    rewrite (lstrip_spaces b _ Hb).
    assert (starts_solid (ioc +:+ a) = true) as Hs.
    { destruct ioc; [done|]. by rewrite string_app_cons. }
    by rewrite (lstrip_solid _ Hs), (rstrip_spaces ioc a Ha), rstrip_solid. }
  split; [by apply Hstrip|].
  unfold survey_ioc. rewrite (Hstrip before after Hbefore Hafter).
  pose proof (Hstrip "" "" eq_refl eq_refl) as Hself.
  change ("" +:+ ioc +:+ "") with (ioc +:+ "") in Hself.
  rewrite string_app_nil_r in Hself. by rewrite Hself.
Qed.

Lemma indicator_is_trimmed_witness :
  Py.strip (" " +:+ "1.2.3.4" +:+ String "013" (String "010" "")) = "1.2.3.4"
  ∧ survey_ioc SampleCriteria.backend SampleIoc.args ""
      (" " +:+ "1.2.3.4" +:+ String "013" (String "010" ""))
    = survey_ioc SampleCriteria.backend SampleIoc.args "" "1.2.3.4".
Proof.
  apply (indicator_is_trimmed SampleCriteria.backend SampleIoc.args ""
           " " "1.2.3.4" (String "013" (String "010" "")));
    reflexivity.
Defined.
